(** * gerbi.managers: page resolution, content revisions, aliases

  A shallow embedding of [gerbi/managers.py] (the managers of the
  [Page], [Content] and [PageAlias] models) and the properties of
  path resolution, content revisioning, content lookup with language
  fallback and alias lookup.

  Database tables are lists of rows in table order.  A [QuerySet] is the
  list of rows it evaluates to.  Timestamps ([datetime] values) and
  primary keys are integers.  Python exceptions are the [Raise] results
  of the [result] type; a function that mutates a table threads it
  through the state-and-exception monad [M]. *)

From Stdlib Require Import Ascii.
From stdpp Require Import base list strings gmap pretty sorting.

Local Open Scope Z_scope.

(** ** Python values: exceptions, results, string slices *)

Inductive exn := DoesNotExist | MultipleObjectsReturned | IndexError.

Global Instance exn_eq_dec : EqDecision exn.
Proof. solve_decision. Defined.

Inductive result (A : Type) :=
| Ok (a : A)
| Raise (e : exn).
Global Arguments Ok {A} a.
Global Arguments Raise {A} e.

(** Sequencing of computations that may raise. *)
Definition result_bind {A B} (r : result A) (k : A → result B) : result B :=
  match r with
  | Ok a => k a
  | Raise e => Raise e
  end.

Notation "'let?' x ':=' r 'in' k" := (result_bind r (λ x, k))
  (at level 10, x name, r at level 100, k at level 200).

(** State and exceptions: the state at the point of the [raise] survives. *)
Definition M (St A : Type) : Type := St → result A * St.

Definition ret {St A} (a : A) : M St A := λ s, (Ok a, s).

Definition bind {St A B} (m : M St A) (k : A → M St B) : M St B :=
  λ s, match m s with
       | (Ok a, s') => k a s'
       | (Raise e, s') => (Raise e, s')
       end.

Notation "'let*' x ':=' m 'in' k" := (bind m (λ x, k))
  (at level 10, x name, m at level 100, k at level 200).

Definition gets {St A} (f : St → A) : M St A := λ s, (Ok (f s), s).
Definition modify {St} (f : St → St) : M St unit := λ s, (Ok tt, f s).
(** A query that may raise and leaves the state as it is. *)
Definition query {St A} (f : St → result A) : M St A := λ s, (f s, s).

(** [for a in l: body(a)] *)
Fixpoint for_each {St A} (l : list A) (body : A → M St unit) : M St unit :=
  match l with
  | [] => ret tt
  | a :: l' => let* _ := body a in for_each l' body
  end.

(** [try: m except e: h] *)
Definition try_except {St A} (m : M St A) (e : exn) (h : M St A) : M St A :=
λ s, match m s with
     | (Raise e', s') => if decide (e' = e) then h s' else (Raise e', s')
     | r => r
     end.

Module Py.

(** [s.endswith(c)] for a one-character [c]. *)
Fixpoint endswith (s : string) (c : Ascii.ascii) : bool :=
  match s with
  | EmptyString => false
  | String a EmptyString => bool_decide (a = c)
  | String _ s' => endswith s' c
  end.

(** [s.startswith(c)] for a one-character [c]. *)
Definition startswith (s : string) (c : Ascii.ascii) : bool :=
  match s with
  | EmptyString => false
  | String a _ => bool_decide (a = c)
  end.

(** [s[:-1]] *)
Fixpoint drop_last (s : string) : string :=
  match s with
  | EmptyString => EmptyString
  | String _ EmptyString => EmptyString
  | String a s' => String a (drop_last s')
  end.

(** [s[1:]] *)
Definition drop_first (s : string) : string :=
  match s with
  | EmptyString => EmptyString
  | String _ s' => s'
  end.

(** Truth value of a string: [None] and [''] are false. *)
Definition truthy (s : string) : bool := bool_decide (s ≠ "").

(** [l[i]] on an evaluated sequence. *)
Definition index {A} (l : list A) (i : nat) : result A :=
  match l !! i with
  | Some a => Ok a
  | None => Raise IndexError
  end.

End Py.

(** ** Settings read by the managers *)

Record Settings := {
GERBI_USE_SITE_ID : bool;
SITE_ID : Z;
GERBI_USE_STRICT_URL : bool;
GERBI_SANITIZE_USER_INPUT : bool;
(** a count of revisions; [0] (or unset) is false: no limit *)
GERBI_CONTENT_REVISION_DEPTH : nat;
(** pairs (code, name), in the configured order *)
GERBI_LANGUAGES : list (string * string);
GERBI_DEFAULT_LANGUAGE : string
}.

(** ** Models *)

(** A per-language dictionary of bodies, and a dictionary of those by key:
  the type of [page._content_dict] and of the shared cache. *)
Abbreviation content_dict_t := (gmap string string) (only parsing).
Abbreviation cache_t := (gmap string (gmap string string)) (only parsing).

Module Page.

Inductive Status := DRAFT | PUBLISHED | HIDDEN.

Global Instance Status_eq_dec : EqDecision Status.
Proof. solve_decision. Defined.

Record t := {
  id : Z;
  parent : option Z;
  status : Status;
  (** a [datetime] or [None]; a [datetime] is always true *)
  freeze_date : option Z;
  (** the sites the page is published on *)
  sites : list Z;
  (** memo of content dictionaries on the page object, initially [None] *)
  _content_dict : option cache_t
}.

Definition set__content_dict (p : t) (d : option cache_t) : t :=
  {| id := id p; parent := parent p; status := status p;
     freeze_date := freeze_date p; sites := sites p; _content_dict := d |}.

End Page.

Module Content.

Record t := {
  (** primary key; [None] on an instance that was never saved *)
  id : option Z;
  page_id : Z;
  language : string;
  type : string;
  creation_date : Z;
  body : string
}.

Definition set_body (c : t) (b : string) : t :=
  {| id := id c; page_id := page_id c; language := language c;
     type := type c; creation_date := creation_date c; body := b |}.

Definition set_id (c : t) (i : option Z) : t :=
  {| id := i; page_id := page_id c; language := language c;
     type := type c; creation_date := creation_date c; body := body c |}.

Global Instance eq_dec : EqDecision t.
Proof. solve_decision. Defined.

(** The table: its rows in insertion order and the next primary key. *)
Record table := {
  rows : list t;
  next_id : Z
}.

(** The primary key constraint: every row has a key, below the next key,
    and no two rows share one. *)
Definition table_ok (tb : table) : Prop :=
  NoDup (map id (rows tb))
  ∧ Forall (λ r, ∃ i, id r = Some i ∧ i < next_id tb) (rows tb).

End Content.

Module PageAlias.

Record t := {
  id : Z;
  page_id : Z;
  url : string
}.

End PageAlias.

(** The part of the request that is read: [request.META]. *)
Record Request := { META : gmap string string }.

(** ** QuerySet operations on [Content] *)

Module ContentQuery.
Import Content.

(** Insertion before the first row that is not strictly newer. *)
Fixpoint insert_desc (c : t) (l : list t) : list t :=
  match l with
  | [] => [c]
  | x :: l' =>
      if bool_decide (creation_date c < creation_date x)
      then x :: insert_desc c l'
      else c :: x :: l'
  end.

(** [.order_by('-creation_date')]: newest first.  The database decides the
    order of rows of equal date; they are kept in table order here. *)
Definition order_by_creation_date_desc (l : list t) : list t :=
  foldr insert_desc [] l.

(** [.latest('creation_date')]: the first row of the descending order,
    [DoesNotExist] on an empty query. *)
Definition latest (l : list t) : result t :=
  match order_by_creation_date_desc l with
  | c :: _ => Ok c
  | [] => Raise DoesNotExist
  end.

(** [c.delete()]: DELETE by primary key. *)
Definition delete (c : t) (tb : table) : table :=
  {| rows := filter (λ r, id r ≠ id c) (rows tb); next_id := next_id tb |}.

(** [c.save()]: INSERT with the next key for an instance without key,
    UPDATE by key for an instance whose key is in the table (INSERT with
    that key when it is not).  Yields the saved instance. *)
Definition save (c : t) (tb : table) : t * table :=
  match id c with
  | None =>
      let c' := set_id c (Some (next_id tb)) in
      (c', {| rows := rows tb ++ [c']; next_id := next_id tb + 1 |})
  | Some _ =>
      if bool_decide (id c ∈ map id (rows tb))
      then (c, {| rows := map (λ r, if bool_decide (id r = id c) then c else r)
                             (rows tb);
                  next_id := next_id tb |})
      else (c, {| rows := rows tb ++ [c]; next_id := next_id tb |})
  end.

End ContentQuery.

(** ** Field lookups on a nullable [datetime] column

    [NULL] satisfies no comparison. *)

Module Lookup.

Definition lte (column : option Z) (value : Z) : Prop :=
  match column with
  | Some d => d ≤ value
  | None => False
  end.

Definition gte (column : option Z) (value : Z) : Prop :=
  match column with
  | Some d => value ≤ d
  | None => False
  end.

Definition gt (column : option Z) (value : Z) : Prop :=
  match column with
  | Some d => value < d
  | None => False
  end.

Definition isnull (column : option Z) : Prop := column = None.

Global Instance lte_dec column value : Decision (lte column value).
Proof. unfold lte. destruct column; apply _. Defined.

Global Instance gte_dec column value : Decision (gte column value).
Proof. unfold gte. destruct column; apply _. Defined.

Global Instance gt_dec column value : Decision (gt column value).
Proof. unfold gt. destruct column; apply _. Defined.

Global Instance isnull_dec column : Decision (isnull column).
Proof. unfold isnull. apply _. Defined.

End Lookup.

(** ** [ContentManager] *)

Module ContentManager.
Import Content ContentQuery.

Section manager.

Variable settings : Settings.

(** [ContentManager.sanitize], the [html5lib] sanitizer. *)
Variable sanitize : string → string.

(** [gerbi.utils.filter_link] *)
Variable filter_link : string → Page.t → string → string → string.

(** [self.filter(page=page, language=language, type=ctype)] *)
Definition filter_tuple (page : Page.t) (language ctype : string)
    (l : list t) : list t :=
  filter (λ c, page_id c = Page.id page ∧ Content.language c = language
               ∧ type c = ctype) l.

(** [self.model(page=page, language=language, body=body, type=ctype)]:
    an instance that is not saved yet; [creation_date] defaults to
    [datetime.now()], whose reading is [now]. *)
Definition model (now : Z) (page : Page.t) (language body ctype : string) : t :=
  {| id := None; page_id := Page.id page; language := language;
     type := ctype; creation_date := now; body := body |}.

(** [c.save()] in the monad. *)
Definition save_m (c : t) : M table t :=
  λ tb, let '(c', tb') := save c tb in (Ok c', tb').

(** [self.create(...)]: instantiate and save. *)
Definition create (now : Z) (page : Page.t) (language body ctype : string)
    : M table t :=
  save_m (model now page language body ctype).

Definition set_or_create_content (now : Z) (page : Page.t)
    (language ctype body : string) : M table t :=
  let body := if GERBI_SANITIZE_USER_INPUT settings then sanitize body
              else body in
  let* content :=
    try_except
      (let* content :=
         query (λ tb, latest (filter_tuple page language ctype (rows tb))) in
       ret (set_body content body))
      DoesNotExist
      (ret (model now page language body ctype)) in
  let* content := save_m content in
  ret content.

Definition create_content_if_changed (now : Z) (page : Page.t)
    (language ctype body : string) : M table t :=
  let body := if GERBI_SANITIZE_USER_INPUT settings then sanitize body
              else body in
  (* [Some content]: the [return content] inside the [try] *)
  let* unchanged :=
    try_except
      (let* content :=
         query (λ tb, latest (filter_tuple page language ctype (rows tb))) in
       if bool_decide (Content.body content = body) then ret (Some content)
       else ret None)
      DoesNotExist
      (ret None) in
  match unchanged with
  | Some content => ret content
  | None =>
      let* content := create now page language body ctype in
      (* Delete old revisions *)
      let* _ :=
        (if bool_decide (GERBI_CONTENT_REVISION_DEPTH settings ≠ 0%nat) then
           let* oldest_content :=
             gets (λ tb,
               drop (GERBI_CONTENT_REVISION_DEPTH settings)
                 (order_by_creation_date_desc
                    (filter_tuple page language ctype (rows tb)))) in
           for_each oldest_content (λ c, modify (delete c))
         else ret tt) in
      ret content
  end.

(** [.latest()] orders by the [Meta.get_latest_by] of the [Content] model,
    which is not among the sources: the latest content is the one of
    maximal creation timestamp. *)
Definition get_content_object (contents : list t) (page : Page.t)
    (language ctype : string) : result t :=
  let qs := filter_tuple page language ctype contents in
  let qs := match Page.freeze_date page with
            | Some freeze_date => filter (λ c, creation_date c ≤ freeze_date) qs
            | None => qs
            end in
  latest qs.

(** ["page_content_dict_%d_%s_%d" % (page.id, ctype, frozen)] *)
Definition GERBI_CONTENT_DICT_KEY (page_id : Z) (ctype : string) (frozen : Z)
    : string :=
  "page_content_dict_" +:+ pretty page_id +:+ "_" +:+ ctype +:+ "_"
  +:+ pretty frozen.

(** Truth value of an optional dictionary: [None] and [{}] are false. *)
Definition truthy_dict (d : option content_dict_t) : bool :=
  match d with
  | Some d => bool_decide (d ≠ ∅)
  | None => false
  end.

(** The loop that fills the dictionary, one query per configured language. *)
Fixpoint fill_content_dict (contents : list t) (page : Page.t) (ctype : string)
    (langs : list (string * string)) (content_dict : content_dict_t)
    : result content_dict_t :=
  match langs with
  | [] => Ok content_dict
  | lang :: langs' =>
      match get_content_object contents page lang.1 ctype with
      | Ok content =>
          fill_content_dict contents page ctype langs'
            (<[lang.1 := body content]> content_dict)
      | Raise DoesNotExist =>
          fill_content_dict contents page ctype langs'
            (<[lang.1 := ""]> content_dict)
      | Raise e => Raise e
      end
  end.

(** The fallback loop: the first configured language with a true body. *)
Fixpoint first_fallback (langs : list (string * string))
    (content_dict : content_dict_t) : option (string * string) :=
  match langs with
  | [] => None
  | lang :: langs' =>
      match content_dict !! lang.1 with
      | Some b => if Py.truthy b then Some (lang.1, b)
                  else first_fallback langs' content_dict
      | None => first_fallback langs' content_dict
      end
  end.

(** The dictionary that is read: the memo on the page object, else the
    shared cache, else a fresh one that is written to both.  The state is
    the shared cache; the page object is handed back with its memo. *)
Definition load_content_dict (contents : list t) (page : Page.t)
    (ctype : string) : M cache_t (content_dict_t * Page.t) :=
  let frozen := match Page.freeze_date page with Some _ => 1 | None => 0 end in
  let key := GERBI_CONTENT_DICT_KEY (Page.id page) ctype frozen in
  let memo := default ∅ (Page._content_dict page) in
  let* content_dict :=
    (if truthy_dict (memo !! key) then ret (memo !! key)
     else gets (λ cache : cache_t, cache !! key)) in
  if negb (truthy_dict content_dict) then
    let* content_dict :=
      query (λ _, fill_content_dict contents page ctype
                    (GERBI_LANGUAGES settings) ∅) in
    let* _ := modify (λ cache : cache_t, <[key := content_dict]> cache) in
    ret (content_dict,
         Page.set__content_dict page (Some (<[key := content_dict]> memo)))
  else
    ret (default ∅ content_dict, Page.set__content_dict page (Some memo)).

(** The fallback branch of [get_content]. *)
Definition fallback (language_fallback : bool) (content_dict : content_dict_t)
    (page : Page.t) (ctype : string) : string :=
  match (if language_fallback
         then first_fallback (GERBI_LANGUAGES settings) content_dict
         else None) with
  | Some (lang, b) => filter_link b page lang ctype
  | None => ""
  end.

Definition get_content (contents : list t) (page : Page.t)
    (language ctype : string) (language_fallback : bool)
    : M cache_t (string * Page.t) :=
  let language := if Py.truthy language then language
                  else GERBI_DEFAULT_LANGUAGE settings in
  let* r := load_content_dict contents page ctype in
  let content_dict := r.1 in
  let page := r.2 in
  match content_dict !! language with
  | Some b =>
      if Py.truthy b then ret (filter_link b page language ctype, page)
      else ret (fallback language_fallback content_dict page ctype, page)
  | None => ret (fallback language_fallback content_dict page ctype, page)
  end.

(** [.values('page_id').annotate(Max('creation_date'))] groups the rows by
    page: one entry for each page that has a matching row. *)
Definition get_page_ids_by_slug (contents : list t) (slug : string)
    : list Z :=
  remove_dups
    (map page_id (filter (λ c, type c = "slug" ∧ body c = slug) contents)).

(** [.filter(page__sites__id=settings.SITE_ID)]: the rows whose page is
    published on the site.  Only the latest row of the result is read. *)
Definition filter_page_site (pages : list Page.t) (l : list t) : list t :=
  filter (λ c, Exists (λ p, Page.id p = page_id c
                            ∧ SITE_ID settings ∈ Page.sites p) pages) l.

(** [None] is the [Ok None] result. *)
Definition get_content_slug_by_slug (pages : list Page.t) (contents : list t)
    (slug : string) : result (option t) :=
  let content := filter (λ c, type c = "slug" ∧ body c = slug) contents in
  let content := if GERBI_USE_SITE_ID settings
                 then filter_page_site pages content else content in
  match latest content with
  | Ok content => Ok (Some content)
  | Raise DoesNotExist => Ok None
  | Raise e => Raise e
  end.

End manager.

End ContentManager.

(** ** [PageManager] *)

Module PageManager.

Section manager.

Variable settings : Settings.

(** [gerbi.http.get_slug]: the slug of a path, its last segment. *)
Variable get_slug : string → string.

(** [Page.get_complete_slug]: the full hierarchical slug of a page in a
    language. *)
Variable get_complete_slug : Page.t → string → string.

(** [self.all()] is the page table in its default order. *)
Definition on_site (pages : list Page.t) (site_id : option Z)
    : list Page.t :=
  if GERBI_USE_SITE_ID settings then
    let site_id := match site_id with
                   | Some i => if bool_decide (i = 0) then SITE_ID settings
                               else i
                   | None => SITE_ID settings
                   end in
    filter (λ p, site_id ∈ Page.sites p) pages
  else pages.

Definition root (pages : list Page.t) : list Page.t :=
  filter (λ p, Page.parent p = None) (on_site pages None).

(** [for page in pages_list: if ...: return page] *)
Fixpoint first_complete_slug (lang complete_path : string)
    (pages_list : list Page.t) : option Page.t :=
  match pages_list with
  | [] => None
  | page :: pages_list' =>
      if bool_decide (get_complete_slug page lang = complete_path)
      then Some page
      else first_complete_slug lang complete_path pages_list'
  end.

(** The two slices at the head of [from_path]. *)
Definition strip_slashes (complete_path : string) : string :=
  let complete_path := if Py.endswith complete_path "/"%char
                       then Py.drop_last complete_path else complete_path in
  if Py.startswith complete_path "/"%char then Py.drop_first complete_path
  else complete_path.

(** The pages that match the slug: [pages_list] of [from_path]. *)
Definition pages_list (pages : list Page.t) (contents : list Content.t)
    (complete_path : string) (exclude_drafts : bool) : list Page.t :=
  let slug := get_slug complete_path in
  let page_ids := ContentManager.get_page_ids_by_slug contents slug in
  let pages_list := filter (λ p, Page.id p ∈ page_ids) (on_site pages None) in
  if exclude_drafts
  then filter (λ p, Page.status p ≠ Page.DRAFT) pages_list
  else pages_list.

(** [None] is the [Ok None] result. *)
Definition from_path (pages : list Page.t) (contents : list Content.t)
    (complete_path lang : string) (exclude_drafts : bool)
    : result (option Page.t) :=
  let complete_path := strip_slashes complete_path in
  (* just return the root page *)
  if bool_decide (complete_path = "") then
    let root_pages := root pages in
    if bool_decide (root_pages ≠ []) then
      let? page := Py.index root_pages 0 in Ok (Some page)
    else Ok None
  else
    let pages_list := pages_list pages contents complete_path exclude_drafts in
    if bool_decide (length pages_list = 1%nat) then
      let? mismatch :=
        (if GERBI_USE_STRICT_URL settings then
           let? page := Py.index pages_list 0 in
           Ok (bool_decide (get_complete_slug page lang ≠ complete_path))
         else Ok false) in
      if mismatch then Ok None
      else let? page := Py.index pages_list 0 in Ok (Some page)
    else
      (* if more than one page is matching the slug,
         we need to use the full strict URL *)
      if bool_decide (1 < length pages_list)%nat then
        match first_complete_slug lang complete_path pages_list with
        | Some page => Ok (Some page)
        | None => Ok None
        end
      else Ok None.

(** Columns of the page table that [Page.t] leaves out, the publication
    window of a page ([None] is [NULL]), and the two settings that the
    filters on it read. *)
Variable publication_date : Page.t → option Z.
Variable publication_end_date : Page.t → option Z.
Variable GERBI_SHOW_START_DATE : bool.
Variable GERBI_SHOW_END_DATE : bool.

Definition navigation (pages : list Page.t) : list Page.t :=
  filter (λ p, Page.parent p = None)
    (filter (λ p, Page.status p = Page.PUBLISHED) (on_site pages None)).

Definition hidden (pages : list Page.t) : list Page.t :=
  filter (λ p, Page.status p = Page.HIDDEN) (on_site pages None).

(** [now_start] and [now_end] are the two readings of [datetime.now()]. *)
Definition filter_published (now_start now_end : Z)
    (queryset : list Page.t) : list Page.t :=
  let queryset := if GERBI_USE_SITE_ID settings
                  then filter (λ p, SITE_ID settings ∈ Page.sites p) queryset
                  else queryset in
  let queryset := filter (λ p, Page.status p = Page.PUBLISHED) queryset in
  let queryset := if GERBI_SHOW_START_DATE
                  then filter (λ p, Lookup.lte (publication_date p) now_start)
                         queryset
                  else queryset in
  let queryset := if GERBI_SHOW_END_DATE
                  then filter (λ p, Lookup.gt (publication_end_date p) now_end
                                    ∨ Lookup.isnull (publication_end_date p))
                         queryset
                  else queryset in
  queryset.

Definition published (now_start now_end : Z) (pages : list Page.t)
    : list Page.t :=
  filter_published now_start now_end pages.

Definition drafts (now : Z) (pages : list Page.t) : list Page.t :=
  let pub := filter (λ p, Page.status p = Page.DRAFT) (on_site pages None) in
  if GERBI_SHOW_START_DATE
  then filter (λ p, Lookup.gte (publication_date p) now) pub
  else pub.

Definition expired (now : Z) (pages : list Page.t) : list Page.t :=
  filter (λ p, Lookup.lte (publication_end_date p) now) (on_site pages None).

End manager.

End PageManager.

(** ** [PageAliasManager] *)

Module PageAliasManager.

Section manager.

(** [gerbi.utils.normalize_url] *)
Variable normalize_url : string → string.

(** [PageAlias.objects.get(url=url)] *)
Definition get (aliases : list PageAlias.t) (url : string)
    : result PageAlias.t :=
  match filter (λ a, PageAlias.url a = url) aliases with
  | [] => Raise DoesNotExist
  | [alias] => Ok alias
  | _ => Raise MultipleObjectsReturned
  end.

(** [lang] is not used. *)
Definition from_path (aliases : list PageAlias.t) (request : Request)
    (path lang : string) : result (option PageAlias.t) :=
  let url := normalize_url path in
  (* §1: try with complete query string *)
  let query := META request !! "QUERY_STRING" in
  let url := match query with
             | Some q => if Py.truthy q then url +:+ "?" +:+ q else url
             | None => url
             end in
  match get aliases url with
  | Ok alias => Ok (Some alias)
  | Raise DoesNotExist =>
      (* §2: try with path only *)
      let url := normalize_url path in
      match get aliases url with
      | Ok alias => Ok (Some alias)
      | Raise DoesNotExist =>
          (* §3: not alias found, we give up *)
          Ok None
      | Raise e => Raise e
      end
  | Raise e => Raise e
  end.

End manager.

End PageAliasManager.

(** ** A sample site

    Concrete settings, tables and collaborators, on which the properties
    below are exercised. *)

Module Sample.

Definition settings : Settings :=
  {| GERBI_USE_SITE_ID := true;
     SITE_ID := 1;
     GERBI_USE_STRICT_URL := true;
     GERBI_SANITIZE_USER_INPUT := false;
     GERBI_CONTENT_REVISION_DEPTH := 2;
     GERBI_LANGUAGES := [("en", "English"); ("fr", "French")];
     GERBI_DEFAULT_LANGUAGE := "en" |}.

(** The same site without strict URLs. *)
Definition lax_settings : Settings :=
  {| GERBI_USE_SITE_ID := true;
     SITE_ID := 1;
     GERBI_USE_STRICT_URL := false;
     GERBI_SANITIZE_USER_INPUT := false;
     GERBI_CONTENT_REVISION_DEPTH := 2;
     GERBI_LANGUAGES := [("en", "English"); ("fr", "French")];
     GERBI_DEFAULT_LANGUAGE := "en" |}.

Definition page (id : Z) (parent : option Z) (status : Page.Status)
    (sites : list Z) : Page.t :=
  {| Page.id := id; Page.parent := parent; Page.status := status;
     Page.freeze_date := None; Page.sites := sites;
     Page._content_dict := None |}.

Definition other_site_root : Page.t := page 6 None Page.PUBLISHED [2].
Definition home : Page.t := page 1 None Page.PUBLISHED [1].
Definition about : Page.t := page 2 (Some 1) Page.PUBLISHED [1].
Definition about_team : Page.t := page 3 (Some 2) Page.PUBLISHED [1].
Definition news : Page.t := page 4 (Some 1) Page.PUBLISHED [1].
Definition news_team : Page.t := page 5 (Some 4) Page.PUBLISHED [1].

(** The page table, in its default order. *)
Definition pages : list Page.t :=
  [other_site_root; home; about; about_team; news; news_team].

Definition content (id page_id : Z) (language type : string)
    (creation_date : Z) (body : string) : Content.t :=
  {| Content.id := Some id; Content.page_id := page_id;
     Content.language := language; Content.type := type;
     Content.creation_date := creation_date; Content.body := body |}.

(** The content table: slugs, and three revisions of the body of [home]. *)
Definition contents : Content.table :=
  {| Content.rows :=
       [content 1 1 "en" "slug" 100 "home";
        content 2 2 "en" "slug" 101 "about";
        content 3 3 "en" "slug" 102 "team";
        content 4 4 "en" "slug" 103 "news";
        content 5 5 "en" "slug" 104 "team";
        content 6 6 "en" "slug" 105 "elsewhere";
        content 7 1 "en" "body" 110 "first";
        content 8 1 "en" "body" 120 "second";
        content 9 1 "en" "body" 130 "third";
        content 10 2 "fr" "body" 140 "bonjour"];
     Content.next_id := 11 |}.

(** Modelled from the spec: [gerbi.http.get_slug] is not among the sources;
    it takes a full path and returns its last segment. *)
Fixpoint last_segment (path segment : string) : string :=
  match path with
  | EmptyString => segment
  | String c path' =>
      if bool_decide (c = "/"%char) then last_segment path' ""
      else last_segment path' (segment +:+ String c "")
  end.

Definition get_slug (path : string) : string := last_segment path "".

(** Modelled from the spec: [Page.get_complete_slug] is not among the
    sources; it gives the full hierarchical slug of a page, here tabulated
    for the pages of the sample site. *)
Definition get_complete_slug (p : Page.t) (lang : string) : string :=
  match Page.id p with
  | 1 => "home"
  | 2 => "home/about"
  | 3 => "home/about/team"
  | 4 => "home/news"
  | 5 => "home/news/team"
  | _ => "elsewhere"
  end.

(** Modelled from the spec: the sanitizer takes a markup string and returns
    a safe one; the bodies of the sample site have no markup. *)
Definition sanitize (content : string) : string := content.

(** Modelled from the spec: [gerbi.utils.filter_link] is not among the
    sources; it returns the body with internal links rewritten.  The bodies
    of the sample site have no link: nothing is rewritten. *)
Definition filter_link (content : string) (p : Page.t)
    (language ctype : string) : string := content.

(** Modelled from the spec: [gerbi.utils.normalize_url] is not among the
    sources; it normalizes a path, here to one leading slash and no
    trailing one. *)
Definition normalize_url (url : string) : string :=
  "/" +:+ PageManager.strip_slashes url.

Definition alias (id page_id : Z) (url : string) : PageAlias.t :=
  {| PageAlias.id := id; PageAlias.page_id := page_id; PageAlias.url := url |}.

Definition aliases : list PageAlias.t :=
  [alias 1 2 "/foo/bar"; alias 2 3 "/foo/bar?page=1"; alias 3 4 "/old"].

Definition request (query_string : string) : Request :=
  {| META := {[ "QUERY_STRING" := query_string ]} |}.

(** The dictionary of the bodies of [home], its key, and [home] with the
    dictionary in its memo. *)
Definition home_dict : gmap string string :=
  <["fr" := ""]> (<["en" := "third"]> ∅).

Definition home_key : string := "page_content_dict_1_body_0".

Definition home_loaded : Page.t :=
  Page.set__content_dict home (Some {[ home_key := home_dict ]}).

(** Pages of the other statuses, and a published page whose publication
    has ended. *)
Definition draft_page : Page.t := page 7 (Some 1) Page.DRAFT [1].
Definition hidden_page : Page.t := page 8 None Page.HIDDEN [1].
Definition ended_page : Page.t := page 9 None Page.PUBLISHED [1].

Definition all_pages : list Page.t :=
  pages ++ [draft_page; hidden_page; ended_page].

(** The publication windows of the pages of the sample site. *)
Definition publication_date (p : Page.t) : option Z :=
  match Page.id p with
  | 4 => None
  | 7 => Some 500
  | 9 => Some 50
  | _ => Some 90
  end.

Definition publication_end_date (p : Page.t) : option Z :=
  match Page.id p with
  | 9 => Some 150
  | _ => None
  end.

(** [home], frozen between its first and its second body. *)
Definition archived_home : Page.t :=
  {| Page.id := 1; Page.parent := None; Page.status := Page.PUBLISHED;
     Page.freeze_date := Some 115; Page.sites := [1];
     Page._content_dict := None |}.

(** The site without a revision depth. *)
Definition unlimited_settings : Settings :=
  {| GERBI_USE_SITE_ID := true;
     SITE_ID := 1;
     GERBI_USE_STRICT_URL := true;
     GERBI_SANITIZE_USER_INPUT := false;
     GERBI_CONTENT_REVISION_DEPTH := 0;
     GERBI_LANGUAGES := [("en", "English"); ("fr", "French")];
     GERBI_DEFAULT_LANGUAGE := "en" |}.

(** An alias table that breaks the uniqueness of urls. *)
Definition duplicate_aliases : list PageAlias.t :=
  [alias 1 2 "/foo"; alias 2 3 "/foo"].




End Sample.

(** * Properties *)

(** ** Path resolution: [PageManager.from_path] *)

Section PageManager_properties.

Variable settings : Settings.
Variable get_slug : string → string.
Variable get_complete_slug : Page.t → string → string.

Local Abbreviation on_site := (PageManager.on_site settings).
Local Abbreviation root := (PageManager.root settings).
Local Abbreviation strip_slashes := PageManager.strip_slashes.
Local Abbreviation pages_list := (PageManager.pages_list settings get_slug).
Local Abbreviation from_path :=
  (PageManager.from_path settings get_slug get_complete_slug).

(** A page without parent that is on the current site (every page, when
    sites are not used). *)
Local Abbreviation root_in_scope p :=
  (Page.parent p = None
   ∧ (GERBI_USE_SITE_ID settings = true → SITE_ID settings ∈ Page.sites p)).

Lemma length_drop_last s :
  String.length (Py.drop_last s) = pred (String.length s).
Proof.
  induction s as [|a s IH]; [done|].
  destruct s as [|b s]; [done|].
  change (Py.drop_last (String a (String b s)))
    with (String a (Py.drop_last (String b s))).
  cbn [String.length]. by rewrite IH.
Qed.

(** The paths that are empty after the removal of one trailing and one
    leading slash. *)
Lemma strip_slashes_empty s :
  strip_slashes s = "" ↔ s = "" ∨ s = "/" ∨ s = "//".
Proof.
  split.
  - intros H. destruct s as [|a [|b [|c s]]].
    + by left.
    + right; left. unfold PageManager.strip_slashes in H. simpl in H.
      case_bool_decide as Ha; [by subst|]. simpl in H.
      by rewrite bool_decide_eq_false_2 in H.
    + right; right. unfold PageManager.strip_slashes in H. simpl in H.
      case_bool_decide as Hb; simpl in H.
      * case_bool_decide as Ha; [by subst|done].
      * case_bool_decide as Ha; done.
    + exfalso.
      assert (Hlen : (1 ≤ String.length
                        (strip_slashes (String a (String b (String c s)))))%nat);
        [|rewrite H in Hlen; simpl in Hlen; lia].
      unfold PageManager.strip_slashes.
      set (t := String a (String b (String c s))).
      assert (3 ≤ String.length t)%nat by (simpl; lia).
      pose proof (length_drop_last t).
      assert (Hf : ∀ u, String.length (Py.drop_first u)
                        = pred (String.length u)) by (by intros [|]).
      repeat case_match; rewrite ?Hf; lia.
  - intros [->|[->| ->]]; reflexivity.
Qed.

Lemma on_site_None_spec pages p :
  p ∈ on_site pages None ↔
  p ∈ pages
  ∧ (GERBI_USE_SITE_ID settings = true → SITE_ID settings ∈ Page.sites p).
Proof.
  unfold PageManager.on_site.
  destruct (GERBI_USE_SITE_ID settings).
  - rewrite list_elem_of_filter. tauto.
  - intuition discriminate.
Qed.

Lemma root_spec pages p :
  p ∈ root pages ↔ p ∈ pages ∧ root_in_scope p.
Proof.
  unfold PageManager.root.
  rewrite list_elem_of_filter, on_site_None_spec. tauto.
Qed.

(** The root pages of a table split at its first root page. *)
Lemma root_app_first l1 p l2 :
  root_in_scope p →
  Forall (λ q, ¬ root_in_scope q) l1 →
  ∃ rest, root (l1 ++ p :: l2) = p :: rest.
Proof.
  intros Hp Hl1.
  assert (Hnil : root l1 = []).
  { apply elem_of_nil_inv. intros q Hq. apply root_spec in Hq as [Hq1 Hq2].
    rewrite Forall_forall in Hl1. by apply (Hl1 q). }
  unfold PageManager.root, PageManager.on_site in *.
  destruct (GERBI_USE_SITE_ID settings) eqn:Hsite.
  - rewrite !filter_app, Hnil. simpl.
    rewrite !filter_cons. destruct Hp as [Hp1 Hp2].
    rewrite decide_True by auto. rewrite filter_cons, decide_True by done.
    eauto.
  - rewrite filter_app, Hnil. simpl.
    rewrite filter_cons, decide_True by apply Hp. eauto.
Qed.

(** C8: when the path is empty after the removal of one trailing and one
    leading slash, [from_path] returns the first page of the table that has
    no parent and is in the current site scope, and [None] (without raising)
    when the table has no such page. *)
Theorem from_path_empty_path_root pages contents complete_path lang
    exclude_drafts :
  strip_slashes complete_path = "" →
  (∀ l1 p l2,
     pages = l1 ++ p :: l2 →
     root_in_scope p →
     Forall (λ q, ¬ root_in_scope q) l1 →
     from_path pages contents complete_path lang exclude_drafts = Ok (Some p))
  ∧ (Forall (λ q, ¬ root_in_scope q) pages →
     from_path pages contents complete_path lang exclude_drafts = Ok None).
Proof.
  intros Hempty. unfold PageManager.from_path. rewrite Hempty.
  rewrite bool_decide_eq_true_2 by done.
  split.
  - intros l1 p l2 -> Hp Hl1.
    destruct (root_app_first l1 p l2 Hp Hl1) as [rest ->].
    rewrite bool_decide_eq_true_2 by done. reflexivity.
  - intros Hnone.
    assert (Hnil : root pages = []).
    { apply elem_of_nil_inv. intros q Hq.
      apply root_spec in Hq as [Hq1 Hq2].
      rewrite Forall_forall in Hnone. by apply (Hnone q). }
    rewrite Hnil. rewrite bool_decide_eq_false_2 by (intros H; by apply H).
    reflexivity.
Qed.

(** The candidates of a path: the pages of the table, in table order, that
    are in the site scope, are not drafts when drafts are excluded, and have
    a row of type slug (of any language or age) whose body is the slug. *)
Lemma pages_list_spec pages contents complete_path exclude_drafts p :
  p ∈ pages_list pages contents complete_path exclude_drafts ↔
  p ∈ pages
  ∧ (GERBI_USE_SITE_ID settings = true → SITE_ID settings ∈ Page.sites p)
  ∧ (exclude_drafts = true → Page.status p ≠ Page.DRAFT)
  ∧ ∃ c, c ∈ contents ∧ Content.type c = "slug"
         ∧ Content.body c = get_slug complete_path
         ∧ Content.page_id c = Page.id p.
Proof.
  assert (Hids : Page.id p ∈ ContentManager.get_page_ids_by_slug contents
                                (get_slug complete_path) ↔
          ∃ c, c ∈ contents ∧ Content.type c = "slug"
               ∧ Content.body c = get_slug complete_path
               ∧ Content.page_id c = Page.id p).
  { unfold ContentManager.get_page_ids_by_slug.
    rewrite elem_of_remove_dups, list_elem_of_fmap.
    split.
    - intros (c & Hid & Hc). apply list_elem_of_filter in Hc as [[? ?] ?].
      exists c. auto.
    - intros (c & Hc & Hty & Hb & Hid). exists c. split; [done|].
      apply list_elem_of_filter. auto. }
  unfold PageManager.pages_list.
  destruct exclude_drafts.
  - rewrite !list_elem_of_filter, on_site_None_spec, Hids. tauto.
  - rewrite list_elem_of_filter, on_site_None_spec, Hids.
    intuition discriminate.
Qed.

Lemma pages_list_sublist pages contents complete_path exclude_drafts :
  pages_list pages contents complete_path exclude_drafts `sublist_of` pages.
Proof.
  unfold PageManager.pages_list, PageManager.on_site.
  destruct exclude_drafts, (GERBI_USE_SITE_ID settings);
    repeat (etrans; [apply sublist_filter; apply _|]); done.
Qed.

(** C1: a path that is not empty after the removal of its slashes and whose
    slug has exactly one candidate [p] resolves to [p] when strict URLs are
    off; when they are on it resolves to [p] exactly when the complete slug
    of [p] in the language is the stripped path, and to [None] otherwise. *)
Theorem from_path_single_candidate pages contents complete_path lang
    exclude_drafts p :
  strip_slashes complete_path ≠ "" →
  pages_list pages contents (strip_slashes complete_path) exclude_drafts
    = [p] →
  (GERBI_USE_STRICT_URL settings = false →
   from_path pages contents complete_path lang exclude_drafts = Ok (Some p))
  ∧ (GERBI_USE_STRICT_URL settings = true →
     (from_path pages contents complete_path lang exclude_drafts = Ok (Some p)
      ↔ get_complete_slug p lang = strip_slashes complete_path)
     ∧ (get_complete_slug p lang ≠ strip_slashes complete_path →
        from_path pages contents complete_path lang exclude_drafts
          = Ok None)).
Proof.
  intros Hne Hone. unfold PageManager.from_path.
  rewrite bool_decide_eq_false_2 by done.
  rewrite Hone. simpl.
  split.
  - intros ->. reflexivity.
  - intros ->. simpl.
    destruct (decide (get_complete_slug p lang = strip_slashes complete_path))
      as [Heq|Hneq].
    + rewrite bool_decide_eq_false_2 by (intros H; by apply H).
      simpl. split; [tauto|]. intros H; by destruct H.
    + rewrite bool_decide_eq_true_2 by done.
      split; [|done]. split; [discriminate|]. intros H; by destruct Hneq.
Qed.

Lemma first_complete_slug_app lang complete_path l1 p l2 :
  Forall (λ q, get_complete_slug q lang ≠ complete_path) l1 →
  get_complete_slug p lang = complete_path →
  PageManager.first_complete_slug get_complete_slug lang complete_path
    (l1 ++ p :: l2) = Some p.
Proof.
  intros Hl1 Hp. induction Hl1 as [|q l1 Hq _ IH]; simpl.
  - by rewrite bool_decide_eq_true_2.
  - by rewrite bool_decide_eq_false_2.
Qed.

Lemma first_complete_slug_none lang complete_path l :
  Forall (λ q, get_complete_slug q lang ≠ complete_path) l →
  PageManager.first_complete_slug get_complete_slug lang complete_path l
    = None.
Proof.
  induction 1 as [|q l Hq _ IH]; simpl; [done|].
  by rewrite bool_decide_eq_false_2.
Qed.

(** C2: with two or more candidates, taken in the order of the page table,
    [from_path] returns the first one whose complete slug in the language is
    the stripped path, and [None] when there is none; with no candidate it
    returns [None].  It does not raise. *)
Theorem from_path_many_candidates pages contents complete_path lang
    exclude_drafts :
  strip_slashes complete_path ≠ "" →
  let cp := strip_slashes complete_path in
  let candidates := pages_list pages contents cp exclude_drafts in
  candidates `sublist_of` pages
  ∧ ((2 ≤ length candidates)%nat →
     (∀ l1 p l2,
        candidates = l1 ++ p :: l2 →
        Forall (λ q, get_complete_slug q lang ≠ cp) l1 →
        get_complete_slug p lang = cp →
        from_path pages contents complete_path lang exclude_drafts
          = Ok (Some p))
     ∧ (Forall (λ q, get_complete_slug q lang ≠ cp) candidates →
        from_path pages contents complete_path lang exclude_drafts
          = Ok None))
  ∧ (candidates = [] →
     from_path pages contents complete_path lang exclude_drafts = Ok None).
Proof.
  intros Hne cp candidates.
  split; [apply pages_list_sublist|].
  unfold PageManager.from_path. fold cp.
  rewrite bool_decide_eq_false_2 by done. fold candidates.
  split.
  - intros Hlen.
    rewrite bool_decide_eq_false_2 by lia.
    rewrite bool_decide_eq_true_2 by lia.
    split.
    + intros l1 p l2 Hsplit Hl1 Hp.
      rewrite Hsplit. by rewrite first_complete_slug_app.
    + intros Hall. by rewrite first_complete_slug_none.
  - intros ->. reflexivity.
Qed.

End PageManager_properties.

(** ** Alias resolution: [PageAliasManager.from_path] *)

Section PageAliasManager_properties.

Variable normalize_url : string → string.

Local Abbreviation get := PageAliasManager.get.
Local Abbreviation alias_from_path := (PageAliasManager.from_path normalize_url).

Lemma get_absent aliases url :
  (∀ a, a ∈ aliases → PageAlias.url a ≠ url) →
  get aliases url = Raise DoesNotExist.
Proof.
  intros Habs. unfold PageAliasManager.get.
  replace (filter (λ a, PageAlias.url a = url) aliases) with (@nil PageAlias.t);
    [done|].
  symmetry. apply elem_of_nil_inv. intros a Ha.
  apply list_elem_of_filter in Ha as [Hu Ha]. by apply (Habs a).
Qed.

(** With unique urls, [get] finds the alias stored under a url. *)
Lemma get_present aliases a :
  NoDup (map PageAlias.url aliases) →
  a ∈ aliases →
  get aliases (PageAlias.url a) = Ok a.
Proof.
  intros Hnd Ha. unfold PageAliasManager.get.
  replace (filter (λ b, PageAlias.url b = PageAlias.url a) aliases) with [a];
    [done|].
  induction aliases as [|b aliases IH]; [by apply not_elem_of_nil in Ha|].
  simpl in Hnd. apply NoDup_cons in Hnd as [Hb Hnd].
  apply elem_of_cons in Ha as [<-|Ha].
  - rewrite filter_cons_True by done. f_equal.
    symmetry. apply elem_of_nil_inv. intros c Hc.
    apply list_elem_of_filter in Hc as [Hu Hc].
    apply Hb. rewrite <- Hu. apply list_elem_of_fmap. eauto.
  - rewrite filter_cons_False; [by apply IH|].
    intros Hu. apply Hb. rewrite Hu. apply list_elem_of_fmap. eauto.
Qed.

(** C7: with unique alias urls, [from_path] returns the alias stored under
    the normalized path followed by [?] and the query string when the
    request has a query string and such an alias exists; when there is no
    query string or no such alias, it returns the alias stored under the
    normalized path alone; when that does not exist either it returns
    [None].  It does not raise. *)
Theorem alias_from_path_two_phases aliases request path lang :
  NoDup (map PageAlias.url aliases) →
  let url := normalize_url path in
  let no_qualified_alias :=
    ∀ q, META request !! "QUERY_STRING" = Some q → q ≠ "" →
         ∀ a, a ∈ aliases → PageAlias.url a ≠ url +:+ "?" +:+ q in
  (∀ q a, META request !! "QUERY_STRING" = Some q → q ≠ "" →
          a ∈ aliases → PageAlias.url a = url +:+ "?" +:+ q →
          alias_from_path aliases request path lang = Ok (Some a))
  ∧ (∀ a, no_qualified_alias → a ∈ aliases → PageAlias.url a = url →
          alias_from_path aliases request path lang = Ok (Some a))
  ∧ (no_qualified_alias →
     (∀ a, a ∈ aliases → PageAlias.url a ≠ url) →
     alias_from_path aliases request path lang = Ok None).
Proof.
  intros Hnd url no_qualified_alias. unfold PageAliasManager.from_path.
  fold url. repeat split.
  - intros q a -> Hq Ha Hu. unfold Py.truthy.
    rewrite bool_decide_eq_true_2 by done.
    rewrite <- Hu. by rewrite get_present.
  - intros a Hno Ha Hu.
    destruct (META request !! "QUERY_STRING") as [q|] eqn:Hmeta.
    + unfold Py.truthy. case_bool_decide as Hq.
      * rewrite (get_absent _ (url +:+ "?" +:+ q)) by (by apply Hno).
        rewrite <- Hu. by rewrite get_present.
      * rewrite <- Hu. by rewrite get_present.
    + rewrite <- Hu. by rewrite get_present.
  - intros Hno Habs.
    destruct (META request !! "QUERY_STRING") as [q|] eqn:Hmeta.
    + unfold Py.truthy. case_bool_decide as Hq.
      * rewrite (get_absent _ (url +:+ "?" +:+ q)) by (by apply Hno).
        by rewrite get_absent.
      * by rewrite get_absent.
    + by rewrite get_absent.
Qed.

End PageAliasManager_properties.

(** ** The descending order of revisions *)

Section order_by_properties.
Import Content ContentQuery.

(** [a] comes no later than [b] in a descending order. *)
Local Abbreviation newer_eq := (λ a b : t, creation_date b ≤ creation_date a).

Lemma insert_desc_Permutation c l : insert_desc c l ≡ₚ c :: l.
Proof.
  induction l as [|x l IH]; simpl; [done|].
  case_bool_decide; [|done].
  rewrite IH. apply Permutation_swap.
Qed.

Lemma order_by_Permutation l : order_by_creation_date_desc l ≡ₚ l.
Proof.
  induction l as [|x l IH]; simpl; [done|].
  by rewrite insert_desc_Permutation, IH.
Qed.

Lemma elem_of_order_by c l : c ∈ order_by_creation_date_desc l ↔ c ∈ l.
Proof. by rewrite order_by_Permutation. Qed.

Lemma length_order_by l : length (order_by_creation_date_desc l) = length l.
Proof. by rewrite order_by_Permutation. Qed.

Lemma insert_desc_sorted c l :
  StronglySorted newer_eq l → StronglySorted newer_eq (insert_desc c l).
Proof.
  induction 1 as [|x l Hl IH Hx]; simpl.
  - repeat constructor.
  - case_bool_decide as Hlt.
    + constructor; [done|].
      rewrite insert_desc_Permutation. constructor; [lia|done].
    + constructor; [by constructor|].
      constructor; [lia|].
      eapply Forall_impl; [exact Hx|]. simpl. intros; lia.
Qed.

Lemma order_by_sorted l :
  StronglySorted newer_eq (order_by_creation_date_desc l).
Proof.
  induction l as [|x l IH]; simpl; [constructor|].
  by apply insert_desc_sorted.
Qed.

(** A row that is at least as new as every row of the list goes first. *)
Lemma insert_desc_head c l :
  Forall (λ x, creation_date x ≤ creation_date c) l →
  insert_desc c l = c :: l.
Proof.
  destruct 1 as [|x l Hx Hl]; simpl; [done|].
  by rewrite bool_decide_eq_false_2 by lia.
Qed.

(** The order of a table is kept by the selection of a part of its rows. *)
Lemma filter_insert_desc (P : t → Prop) `{!∀ x, Decision (P x)} c l :
  StronglySorted newer_eq l →
  filter P (insert_desc c l)
  = if decide (P c) then insert_desc c (filter P l) else filter P l.
Proof.
  induction 1 as [|x l Hl IH Hx]; simpl.
  - rewrite filter_cons, filter_nil. by destruct (decide (P c)).
  - case_bool_decide as Hlt.
    + rewrite !(filter_cons _ x), IH.
      destruct (decide (P c)), (decide (P x)); simpl; try done.
      by rewrite bool_decide_eq_true_2.
    + rewrite (filter_cons _ c), !(filter_cons _ x).
      destruct (decide (P c)), (decide (P x)); simpl; try done.
      * by rewrite bool_decide_eq_false_2.
      * symmetry. apply insert_desc_head.
        apply Forall_forall. intros y Hy.
        apply list_elem_of_filter in Hy as [_ Hy].
        rewrite Forall_forall in Hx. specialize (Hx y Hy). simpl in Hx. lia.
Qed.

Lemma filter_order_by (P : t → Prop) `{!∀ x, Decision (P x)} l :
  filter P (order_by_creation_date_desc l)
  = order_by_creation_date_desc (filter P l).
Proof.
  induction l as [|x l IH]; simpl; [done|].
  rewrite filter_insert_desc by apply order_by_sorted.
  rewrite filter_cons, IH. by destruct (decide (P x)).
Qed.

(** A row appended to the table that is strictly newer than all the others
    is the first of the order. *)
Lemma order_by_snoc_newest l c :
  Forall (λ x, creation_date x < creation_date c) l →
  order_by_creation_date_desc (l ++ [c]) = c :: order_by_creation_date_desc l.
Proof.
  induction 1 as [|x l Hx Hl IH]; simpl; [done|].
  rewrite IH. simpl. by rewrite bool_decide_eq_true_2.
Qed.

Lemma latest_Ok l c :
  latest l = Ok c →
  c ∈ l ∧ ∀ c', c' ∈ l → creation_date c' ≤ creation_date c.
Proof.
  unfold latest. intros H.
  pose proof (order_by_sorted l) as Hs.
  pose proof (elem_of_order_by) as Hin.
  destruct (order_by_creation_date_desc l) as [|x rest] eqn:Ho; [done|].
  injection H as ->. split.
  - apply (Hin c l). rewrite Ho. left.
  - intros c' Hc'. apply (Hin c' l) in Hc'. rewrite Ho in Hc'.
    apply StronglySorted_inv in Hs as [_ Hall].
    apply elem_of_cons in Hc' as [->|Hc']; [lia|].
    rewrite Forall_forall in Hall. by apply Hall.
Qed.

Lemma latest_Raise l e : latest l = Raise e → e = DoesNotExist ∧ l = [].
Proof.
  unfold latest. intros H.
  pose proof (length_order_by l) as Hlen.
  destruct (order_by_creation_date_desc l); [|done].
  injection H as <-. split; [done|]. by destruct l.
Qed.

Lemma latest_nonempty l : l ≠ [] → ∃ c, latest l = Ok c.
Proof.
  intros Hne. destruct (latest l) as [c|e] eqn:H; [eauto|].
  by apply latest_Raise in H as [_ ?].
Qed.

End order_by_properties.

(** ** The latest content of a page: [get_content_object] *)

Section get_content_object_properties.
Import Content ContentQuery.

Local Abbreviation get_content_object := ContentManager.get_content_object.

(** The rows of the (page, language, type) tuple. *)
Local Abbreviation in_tuple contents page lang ctype c :=
  (c ∈ contents ∧ page_id c = Page.id page ∧ language c = lang
   ∧ type c = ctype).

Lemma elem_of_filter_tuple contents page lang ctype c :
  c ∈ ContentManager.filter_tuple page lang ctype contents
  ↔ in_tuple contents page lang ctype c.
Proof. unfold ContentManager.filter_tuple. rewrite list_elem_of_filter. tauto. Qed.

Lemma get_content_object_cases contents page lang ctype :
  let visible c :=
    in_tuple contents page lang ctype c
    ∧ match Page.freeze_date page with
      | Some T => creation_date c ≤ T
      | None => True
      end in
  match get_content_object contents page lang ctype with
  | Ok r => visible r ∧ ∀ c, visible c → creation_date c ≤ creation_date r
  | Raise e => e = DoesNotExist ∧ ∀ c, ¬ visible c
  end.
Proof.
  intros visible. unfold ContentManager.get_content_object.
  set (qs := match Page.freeze_date page with
             | Some T => filter (λ c, creation_date c ≤ T)
                           (ContentManager.filter_tuple page lang ctype contents)
             | None => ContentManager.filter_tuple page lang ctype contents
             end).
  assert (Hqs : ∀ c, c ∈ qs ↔ visible c).
  { intros c. unfold qs, visible.
    destruct (Page.freeze_date page) as [T|].
    - rewrite list_elem_of_filter, elem_of_filter_tuple. tauto.
    - rewrite elem_of_filter_tuple. tauto. }
  destruct (latest qs) as [r|e] eqn:Hl.
  - apply latest_Ok in Hl as [Hr Hmax]. split; [by apply Hqs|].
    intros c Hc. apply Hmax. by apply Hqs.
  - apply latest_Raise in Hl as [-> Hnil]. split; [done|].
    intros c Hc. apply Hqs in Hc. rewrite Hnil in Hc.
    by apply not_elem_of_nil in Hc.
Qed.

(** C6: for a page frozen at [T], [get_content_object] returns a row of the
    tuple created at or before [T] that is at least as new as every such
    row, and raises [DoesNotExist] exactly when the tuple has no row created
    at or before [T]; for a page that is not frozen the same holds over all
    the rows of the tuple, whatever their creation date. *)
Theorem get_content_object_freeze_date contents page lang ctype :
  let latest_of (visible : t → Prop) :=
    (∀ c, visible c →
       ∃ r, get_content_object contents page lang ctype = Ok r
            ∧ visible r
            ∧ ∀ c', visible c' → creation_date c' ≤ creation_date r)
    ∧ (get_content_object contents page lang ctype = Raise DoesNotExist
       ↔ ∀ c, ¬ visible c) in
  (∀ T, Page.freeze_date page = Some T →
        latest_of (λ c, in_tuple contents page lang ctype c
                        ∧ creation_date c ≤ T))
  ∧ (Page.freeze_date page = None →
     latest_of (λ c, in_tuple contents page lang ctype c)).
Proof.
  intros latest_of.
  pose proof (get_content_object_cases contents page lang ctype) as Hc.
  simpl in Hc. unfold latest_of. split.
  - intros T HT. rewrite HT in Hc.
    destruct (get_content_object contents page lang ctype) as [r|e].
    + destruct Hc as [Hr Hmax]. split.
      * intros c Hv. exists r. auto.
      * split; [intros ?; discriminate|]. intros Hnone. by destruct (Hnone r).
    + destruct Hc as [-> Hnone]. split.
      * intros c Hv. by destruct (Hnone c).
      * split; [by intros _|done].
  - intros HT. rewrite HT in Hc.
    destruct (get_content_object contents page lang ctype) as [r|e].
    + destruct Hc as [[Hr _] Hmax]. split.
      * intros c Hv. exists r. split; [done|]. split; [done|].
        intros c' Hc'. apply Hmax. by split.
      * split; [intros ?; discriminate|]. intros Hnone. by destruct (Hnone r).
    + destruct Hc as [-> Hnone]. split.
      * intros c Hv. destruct (Hnone c). by split.
      * split; [|done]. intros _ c Hv. apply (Hnone c). by split.
Qed.

End get_content_object_properties.

(** ** Revisions: [set_or_create_content] and [create_content_if_changed] *)

Section revisions_properties.
Import Content ContentQuery.

Variable settings : Settings.
Variable sanitize : string → string.

Local Abbreviation filter_tuple := ContentManager.filter_tuple.
Local Abbreviation model := ContentManager.model.
Local Abbreviation set_or_create_content :=
  (ContentManager.set_or_create_content settings sanitize).
Local Abbreviation create_content_if_changed :=
  (ContentManager.create_content_if_changed settings sanitize).
Local Abbreviation depth := (GERBI_CONTENT_REVISION_DEPTH settings).

(** The body that is stored and compared. *)
Local Abbreviation stored b :=
  (if GERBI_SANITIZE_USER_INPUT settings then sanitize b%string else b%string).

(** The revisions of a tuple, newest first. *)
Local Abbreviation revisions page lang ctype tb :=
  (order_by_creation_date_desc (filter_tuple page lang ctype (rows tb))).

Lemma table_ok_fresh tb r :
  table_ok tb → r ∈ rows tb → id r ≠ Some (next_id tb).
Proof.
  intros [_ Hlt] Hr Hid. rewrite Forall_forall in Hlt.
  destruct (Hlt r Hr) as (i & Hi & Hlti). rewrite Hi in Hid.
  injection Hid as ->. lia.
Qed.

Lemma table_ok_insert tb c :
  table_ok tb →
  table_ok {| rows := rows tb ++ [set_id c (Some (next_id tb))];
              next_id := next_id tb + 1 |}.
Proof.
  intros Hok. pose proof Hok as [Hnd Hlt]. split; simpl.
  - rewrite map_app. apply NoDup_app. split; [done|]. split.
    + intros i Hi Hi'. simpl in Hi'. apply list_elem_of_singleton in Hi'.
      apply list_elem_of_fmap in Hi as (r & -> & Hr).
      by apply (table_ok_fresh tb r).
    + simpl. apply NoDup_singleton.
  - apply Forall_app. split.
    + eapply Forall_impl; [exact Hlt|]. simpl.
      intros r (i & Hi & Hlti). exists i. split; [done|lia].
    + constructor; [|constructor]. exists (next_id tb). simpl. split; [done|lia].
Qed.

Lemma table_ok_filter (P : t → Prop) `{!∀ x, Decision (P x)} tb :
  table_ok tb →
  table_ok {| rows := filter P (rows tb); next_id := next_id tb |}.
Proof.
  intros [Hnd Hlt]. split; simpl.
  - eapply sublist_NoDup; [exact Hnd|].
    apply (fmap_sublist id), sublist_filter.
  - apply Forall_forall. intros r Hr.
    apply list_elem_of_filter in Hr as [_ Hr].
    rewrite Forall_forall in Hlt. by apply Hlt.
Qed.

(** The loop of deletions removes the rows whose key is the key of a row of
    the list. *)
Lemma for_each_delete l tb :
  for_each l (λ c, modify (delete c)) tb
  = (Ok tt, {| rows := filter (λ r, id r ∉ map id l) (rows tb);
               next_id := next_id tb |}).
Proof.
  revert tb. induction l as [|c l IH]; intros tb; simpl.
  - unfold ret. f_equal. destruct tb as [rs n]. simpl. f_equal.
    induction rs as [|r rs IHrs]; [done|].
    rewrite filter_cons_True by apply not_elem_of_nil. by rewrite <- IHrs.
  - unfold bind, modify. rewrite IH. simpl. f_equal. f_equal.
    rewrite list_filter_filter. apply list_filter_iff.
    intros r. rewrite not_elem_of_cons. tauto.
Qed.

(** Dropping from a list without repeated keys the rows whose key is in its
    tail leaves its head. *)
Lemma filter_not_in_drop (l : list t) k :
  NoDup (map id l) →
  filter (λ r, id r ∉ map id (drop k l)) l = take k l.
Proof.
  revert k. induction l as [|x l IH]; intros k Hnd; [by destruct k|].
  simpl in Hnd. apply NoDup_cons in Hnd as [Hx Hnd].
  destruct k as [|k]; simpl.
  - rewrite filter_cons_False by (intros H; apply H; left).
    apply elem_of_nil_inv. intros r Hr.
    apply list_elem_of_filter in Hr as [Hr1 Hr2].
    apply Hr1. right. apply list_elem_of_fmap. eauto.
  - rewrite filter_cons_True.
    + f_equal. by apply IH.
    + intros Hin. apply Hx.
      apply list_elem_of_fmap in Hin as (r & -> & Hr).
      apply list_elem_of_fmap. exists r. split; [done|].
      by eapply subseteq_drop.
Qed.

(** The row that a creating call inserts. *)
Local Abbreviation new_row now page lang ctype b tb :=
  (set_id (model now page lang (stored b) ctype) (Some (next_id tb))).

(** The table after the insertion and the deletion of the old revisions. *)
Local Abbreviation pruned page lang ctype rows1 :=
  (if decide (depth = 0%nat) then rows1%list
   else filter (λ r, id r ∉ map id
                  (drop depth (order_by_creation_date_desc
                                 (filter_tuple page lang ctype rows1%list))))
          rows1%list).

Lemma create_content_if_changed_unchanged now page lang ctype b tb content :
  latest (filter_tuple page lang ctype (rows tb)) = Ok content →
  body content = stored b →
  create_content_if_changed now page lang ctype b tb = (Ok content, tb).
Proof.
  intros Hl Hb. unfold ContentManager.create_content_if_changed.
  unfold bind, try_except, query, ret. rewrite Hl. simpl.
  by rewrite bool_decide_eq_true_2.
Qed.

Lemma create_content_if_changed_changed now page lang ctype b tb :
  (∀ content, latest (filter_tuple page lang ctype (rows tb)) = Ok content →
              body content ≠ stored b) →
  create_content_if_changed now page lang ctype b tb
  = (Ok (new_row now page lang ctype b tb),
     {| rows := pruned page lang ctype
                  (rows tb ++ [new_row now page lang ctype b tb]);
        next_id := next_id tb + 1 |}).
Proof.
  intros Hdiff. unfold ContentManager.create_content_if_changed.
  unfold bind at 1. unfold try_except, bind at 1. unfold query, ret.
  assert (Hcreate : ∀ tb0 : table, tb0 = tb →
    (let* content := ContentManager.create now page lang (stored b) ctype in
     let* _ :=
       (if bool_decide (depth ≠ 0%nat) then
          let* oldest_content :=
            gets (λ tb1, drop depth
                    (order_by_creation_date_desc
                       (filter_tuple page lang ctype (rows tb1)))) in
          for_each oldest_content (λ c, modify (delete c))
        else ret tt) in
     ret content) tb0
    = (Ok (new_row now page lang ctype b tb),
       {| rows := pruned page lang ctype
                    (rows tb ++ [new_row now page lang ctype b tb]);
          next_id := next_id tb + 1 |})).
  { intros tb0 ->. unfold bind at 1.
    unfold ContentManager.create, ContentManager.save_m, save. simpl.
    unfold bind at 1. destruct (decide (depth = 0%nat)) as [Hz|Hnz].
    - rewrite bool_decide_eq_false_2 by (intros H; by apply H).
      reflexivity.
    - rewrite bool_decide_eq_true_2 by done.
      unfold bind, gets. rewrite for_each_delete. reflexivity. }
  destruct (latest (filter_tuple page lang ctype (rows tb))) as [c|e] eqn:Hl.
  - simpl. rewrite bool_decide_eq_false_2 by (by apply Hdiff).
    by apply Hcreate.
  - apply latest_Raise in Hl as [-> _]. simpl. by apply Hcreate.
Qed.

Lemma NoDup_fmap_elem_inj {A B} (f : A → B) (l : list A) x y :
  NoDup (f <$> l) → x ∈ l → y ∈ l → f x = f y → x = y.
Proof.
  induction l as [|a l IH]; intros Hnd Hx Hy Hf; [by apply not_elem_of_nil in Hx|].
  rewrite fmap_cons in Hnd. apply NoDup_cons in Hnd as [Ha Hnd].
  apply elem_of_cons in Hx as [->|Hx]; apply elem_of_cons in Hy as [->|Hy].
  - done.
  - destruct Ha. rewrite Hf. apply list_elem_of_fmap. eauto.
  - destruct Ha. rewrite <- Hf. apply list_elem_of_fmap. eauto.
  - by apply IH.
Qed.

(** After the deletions the revisions of the tuple are the first [k] of the
    descending order. *)
Lemma revisions_after_prune page lang ctype (rows1 : list t) k :
  NoDup (map id rows1) →
  order_by_creation_date_desc
    (filter_tuple page lang ctype
       (filter (λ r, id r ∉ map id
                  (drop k (order_by_creation_date_desc
                             (filter_tuple page lang ctype rows1))))
          rows1))
  = take k (order_by_creation_date_desc (filter_tuple page lang ctype rows1)).
Proof.
  intros Hnd.
  set (L := order_by_creation_date_desc (filter_tuple page lang ctype rows1)).
  assert (Hswap :
    filter_tuple page lang ctype
      (filter (λ r, id r ∉ map id (drop k L)) rows1)
    = filter (λ r, id r ∉ map id (drop k L))
        (filter_tuple page lang ctype rows1)).
  { unfold ContentManager.filter_tuple. rewrite !list_filter_filter.
    apply list_filter_iff. intros; tauto. }
  rewrite Hswap, <- filter_order_by. fold L.
  apply filter_not_in_drop.
  unfold L. rewrite order_by_Permutation.
  eapply sublist_NoDup; [exact Hnd|].
  apply (fmap_sublist id), sublist_filter.
Qed.

Lemma latest_head l :
  latest l = match head (order_by_creation_date_desc l) with
             | Some c => Ok c
             | None => Raise DoesNotExist
             end.
Proof. unfold latest. by destruct (order_by_creation_date_desc l). Qed.

Lemma filter_tuple_new_row now page lang ctype b tb rs :
  filter_tuple page lang ctype (rs ++ [new_row now page lang ctype b tb])
  = filter_tuple page lang ctype rs ++ [new_row now page lang ctype b tb].
Proof.
  unfold ContentManager.filter_tuple. rewrite filter_app. f_equal.
  by rewrite filter_cons_True.
Qed.


(** A creating call whose clock reading is after the creation of every
    revision of the tuple. *)
Lemma create_changed_newest now page lang ctype b tb :
  table_ok tb →
  Forall (λ c, creation_date c < now) (filter_tuple page lang ctype (rows tb)) →
  (∀ content, latest (filter_tuple page lang ctype (rows tb)) = Ok content →
              body content ≠ stored b) →
  let new := new_row now page lang ctype b tb in
  let tb' := (create_content_if_changed now page lang ctype b tb).2 in
  (create_content_if_changed now page lang ctype b tb).1 = Ok new
  ∧ table_ok tb'
  ∧ revisions page lang ctype tb'
    = (if decide (depth = 0%nat) then new :: revisions page lang ctype tb
       else take depth (new :: revisions page lang ctype tb))
  ∧ filter (λ r, r ∉ rows tb) (rows tb') = [new].
Proof.
  intros Hok Hnow Hdiff new tb'.
  pose proof (table_ok_insert tb (model now page lang (stored b) ctype) Hok)
    as Hok1.
  assert (Horder :
    order_by_creation_date_desc
      (filter_tuple page lang ctype (rows tb ++ [new]))
    = new :: revisions page lang ctype tb).
  { unfold new. rewrite filter_tuple_new_row.
    by apply order_by_snoc_newest. }
  assert (Hfresh : new ∉ rows tb).
  { intros Hin. by apply (table_ok_fresh tb new Hok Hin). }
  assert (Hold : filter (λ r, r ∉ rows tb) (rows tb) = []).
  { apply elem_of_nil_inv. intros r Hr.
    apply list_elem_of_filter in Hr as [Hr1 Hr2]. by apply Hr1. }
  unfold tb'. rewrite create_content_if_changed_changed by done. simpl.
  fold new. split; [done|].
  destruct (decide (depth = 0%nat)) as [Hz|Hnz].
  - split; [exact Hok1|]. split; [exact Horder|].
    rewrite filter_app, Hold. simpl. by rewrite filter_cons_True.
  - split; [by apply (table_ok_filter _ _ Hok1)|].
    split.
    + rewrite revisions_after_prune by apply Hok1. by rewrite Horder.
    + rewrite Horder, !filter_app.
      assert (Hkept : filter (λ r, r ∉ rows tb)
                (filter (λ r, id r ∉ map id
                           (drop depth (new :: revisions page lang ctype tb)))
                   (rows tb)) = []).
      { apply elem_of_nil_inv. intros r Hr.
        apply list_elem_of_filter in Hr as [Hr1 Hr2].
        apply list_elem_of_filter in Hr2 as [_ Hr2]. by apply Hr1. }
      rewrite Hkept. simpl.
      rewrite (filter_cons_True _ new).
      * by rewrite filter_cons_True.
      * destruct depth as [|k]; [done|]. simpl. intros Hin.
        apply list_elem_of_fmap in Hin as (r & Hid & Hr).
        apply subseteq_drop in Hr.
        apply (proj1 (elem_of_order_by _ _)) in Hr.
        apply list_elem_of_filter in Hr as [_ Hr].
        by apply (table_ok_fresh tb r Hok Hr).
Qed.

(** C10: when the latest revision of the tuple has the body that would be
    stored, [create_content_if_changed] returns it and the table is exactly
    the table before the call: no row is inserted and none is deleted,
    however many revisions the tuple has. *)
Theorem create_content_if_changed_same_body_noop now page lang ctype b tb
    content :
  latest (filter_tuple page lang ctype (rows tb)) = Ok content →
  body content = stored b →
  create_content_if_changed now page lang ctype b tb = (Ok content, tb)
  ∧ revisions page lang ctype
      (create_content_if_changed now page lang ctype b tb).2
    = revisions page lang ctype tb.
Proof.
  intros Hl Hb.
  rewrite (create_content_if_changed_unchanged now page lang ctype b tb content)
    by done.
  done.
Qed.

(** C3 (as amended): when the clock reading of the first call is after the
    creation of every revision of the tuple, the second of two calls with
    the same body returns what the first returned and leaves the table as
    the first left it; the two calls insert one row when the latest
    revision before them is absent or has another body, and none when it
    has that body already. *)
Theorem create_content_if_changed_twice now1 now2 page lang ctype b tb :
  table_ok tb →
  Forall (λ c, creation_date c < now1)
    (filter_tuple page lang ctype (rows tb)) →
  let first := create_content_if_changed now1 page lang ctype b tb in
  let second := create_content_if_changed now2 page lang ctype b first.2 in
  second = first
  ∧ ∃ content,
      first.1 = Ok content
      ∧ body content = stored b
      ∧ ((∀ c, latest (filter_tuple page lang ctype (rows tb)) = Ok c →
               body c ≠ stored b) →
         filter (λ r, r ∉ rows tb) (rows second.2) = [content])
      ∧ ((∃ c, latest (filter_tuple page lang ctype (rows tb)) = Ok c
               ∧ body c = stored b) →
         filter (λ r, r ∉ rows tb) (rows second.2) = []).
Proof.
  intros Hok Hnow first second.
  destruct (latest (filter_tuple page lang ctype (rows tb))) as [c|e] eqn:Hl.
  - destruct (decide (body c = stored b)) as [Heq|Hneq].
    + assert (Hfirst : first = (Ok c, tb)).
      { unfold first.
        by rewrite (create_content_if_changed_unchanged _ _ _ _ _ _ c). }
      assert (Hsecond : second = (Ok c, tb)).
      { unfold second. rewrite Hfirst. simpl.
        by rewrite (create_content_if_changed_unchanged _ _ _ _ _ _ c). }
      rewrite Hsecond, Hfirst. split; [done|]. exists c. simpl.
      split; [done|]. split; [done|]. split.
      * intros Hdiff. by destruct (Hdiff c).
      * intros _. apply elem_of_nil_inv. intros r Hr.
        apply list_elem_of_filter in Hr as [Hr1 Hr2]. by apply Hr1.
    + assert (Hdiff : ∀ c0, Ok c = Ok c0 → body c0 ≠ stored b).
      { intros c0 [= <-]. done. }
      rewrite <- Hl in Hdiff.
      destruct (create_changed_newest now1 page lang ctype b tb Hok Hnow Hdiff)
        as (Hres & Hok' & Hrev & Hnew).
      fold first in Hres, Hok', Hrev, Hnew.
      set (new := new_row now1 page lang ctype b tb) in *.
      assert (Hlatest : latest (filter_tuple page lang ctype (rows first.2))
                        = Ok new).
      { rewrite latest_head, Hrev.
        destruct (decide (depth = 0%nat)); [done|].
        destruct depth; done. }
      assert (Hsecond : second = (Ok new, first.2)).
      { unfold second.
        by rewrite (create_content_if_changed_unchanged _ _ _ _ _ _ new). }
      rewrite Hsecond. split.
      * destruct first as [r1 tb1]. simpl in *. by rewrite Hres.
      * exists new. simpl. split; [done|]. split; [done|]. split; [done|].
        intros (c0 & Hc0 & Hb0). injection Hc0 as <-. done.
  - assert (Hdiff : ∀ c0, Raise e = Ok c0 → body c0 ≠ stored b) by done.
    rewrite <- Hl in Hdiff.
    destruct (create_changed_newest now1 page lang ctype b tb Hok Hnow Hdiff)
      as (Hres & Hok' & Hrev & Hnew).
    fold first in Hres, Hok', Hrev, Hnew.
    set (new := new_row now1 page lang ctype b tb) in *.
    assert (Hlatest : latest (filter_tuple page lang ctype (rows first.2))
                      = Ok new).
    { rewrite latest_head, Hrev.
      destruct (decide (depth = 0%nat)); [done|].
      destruct depth; done. }
    assert (Hsecond : second = (Ok new, first.2)).
    { unfold second.
      by rewrite (create_content_if_changed_unchanged _ _ _ _ _ _ new). }
    rewrite Hsecond. split.
    + destruct first as [r1 tb1]. simpl in *. by rewrite Hres.
    + exists new. simpl. split; [done|]. split; [done|]. split; [done|].
      intros (c0 & Hc0 & Hb0). discriminate.
Qed.

Lemma take_app_take {A} (l m : list A) (k n : nat) :
  (k ≤ n)%nat → take k (l ++ take n m) = take k (l ++ m).
Proof.
  revert k. induction l as [|x l IH]; intros k Hk; simpl.
  - rewrite take_take. f_equal. lia.
  - destruct k as [|k]; simpl; [done|]. f_equal. apply IH. lia.
Qed.

(** What every call establishes, creating or not, when its clock reading is
    after the creation of every revision of the tuple. *)
Lemma call_invariants now page lang ctype b tb :
  table_ok tb →
  Forall (λ c, creation_date c < now) (filter_tuple page lang ctype (rows tb)) →
  let tb' := (create_content_if_changed now page lang ctype b tb).2 in
  table_ok tb'
  ∧ head (body <$> revisions page lang ctype tb') = Some (stored b)
  ∧ Forall (λ c, creation_date c ≤ now)
      (filter_tuple page lang ctype (rows tb')).
Proof.
  intros Hok Hnow tb'.
  destruct (latest (filter_tuple page lang ctype (rows tb))) as [c|e] eqn:Hl.
  - destruct (decide (body c = stored b)) as [Heq|Hneq].
    + unfold tb'.
      rewrite (create_content_if_changed_unchanged _ _ _ _ _ _ c) by done.
      simpl. split; [done|]. split.
      * rewrite latest_head in Hl.
        destruct (revisions page lang ctype tb); [done|].
        injection Hl as ->. simpl. by rewrite Heq.
      * eapply Forall_impl; [exact Hnow|]. simpl. intros; lia.
    + assert (Hdiff : ∀ c0, Ok c = Ok c0 → body c0 ≠ stored b).
      { intros c0 [= <-]. done. }
      rewrite <- Hl in Hdiff.
      destruct (create_changed_newest now page lang ctype b tb Hok Hnow Hdiff)
        as (_ & Hok' & Hrev & _).
      fold tb' in Hok', Hrev. split; [done|]. split.
      * rewrite Hrev. destruct (decide (depth = 0%nat)); [done|].
        by destruct depth.
      * apply Forall_forall. intros r Hr.
        apply (proj2 (elem_of_order_by _ _)) in Hr. rewrite Hrev in Hr.
        assert (Hr' : r ∈ new_row now page lang ctype b tb
                          :: revisions page lang ctype tb).
        { destruct (decide (depth = 0%nat)); [done|].
          by eapply subseteq_take. }
        apply elem_of_cons in Hr' as [->|Hr']; [done|].
        apply (proj1 (elem_of_order_by _ _)) in Hr'.
        rewrite Forall_forall in Hnow. specialize (Hnow r Hr'). simpl in Hnow. lia.
  - assert (Hdiff : ∀ c0, Raise e = Ok c0 → body c0 ≠ stored b) by done.
    rewrite <- Hl in Hdiff.
    destruct (create_changed_newest now page lang ctype b tb Hok Hnow Hdiff)
      as (_ & Hok' & Hrev & _).
    fold tb' in Hok', Hrev. split; [done|]. split.
    + rewrite Hrev. destruct (decide (depth = 0%nat)); [done|].
      by destruct depth.
    + apply Forall_forall. intros r Hr.
      apply (proj2 (elem_of_order_by _ _)) in Hr. rewrite Hrev in Hr.
      assert (Hr' : r ∈ new_row now page lang ctype b tb
                        :: revisions page lang ctype tb).
      { destruct (decide (depth = 0%nat)); [done|].
        by eapply subseteq_take. }
      apply elem_of_cons in Hr' as [->|Hr']; [done|].
      apply (proj1 (elem_of_order_by _ _)) in Hr'.
      rewrite Forall_forall in Hnow. specialize (Hnow r Hr'). simpl in Hnow. lia.
Qed.

(** A sequence of calls on one tuple: pairs of a clock reading and a body. *)
Local Abbreviation run page lang ctype calls tb :=
  (foldl (λ tb0 (call : Z * string),
            (create_content_if_changed call.1 page lang ctype call.2 tb0).2)
     tb calls).

(** The bodies that the calls store. *)
Local Abbreviation stored_bodies calls :=
  ((λ call : Z * string, stored call.2) <$> calls).

Lemma run_revisions page lang ctype calls : ∀ tb prev,
  depth ≠ 0%nat →
  table_ok tb →
  head (body <$> revisions page lang ctype tb) = Some prev →
  prev ∉ stored_bodies calls →
  NoDup (stored_bodies calls) →
  StronglySorted Z.lt (fst <$> calls) →
  Forall (λ call : Z * string,
            Forall (λ c, creation_date c < call.1)
              (filter_tuple page lang ctype (rows tb))) calls →
  calls ≠ [] →
  body <$> revisions page lang ctype (run page lang ctype calls tb)
  = take depth (reverse (stored_bodies calls)
                ++ (body <$> revisions page lang ctype tb)).
Proof.
  induction calls as [|[now b] rest IH];
    intros tb prev Hdepth Hok Hprev Hnotin Hnd Hsorted Hnow Hne; [done|].
  clear Hne.
  simpl in *.
  apply not_elem_of_cons in Hnotin as [Hprev_b Hnotin].
  apply NoDup_cons in Hnd as [Hb Hnd].
  apply StronglySorted_inv in Hsorted as [Hsorted Hlater].
  apply Forall_cons in Hnow as [Hnow Hnow_rest].
  assert (Hdiff : ∀ content,
            latest (filter_tuple page lang ctype (rows tb)) = Ok content →
            body content ≠ stored b).
  { intros content Hl. rewrite latest_head in Hl.
    destruct (revisions page lang ctype tb) as [|c0 l0]; [done|].
    injection Hl as ->. simpl in Hprev. injection Hprev as ->. done. }
  destruct (create_changed_newest now page lang ctype b tb Hok Hnow Hdiff)
    as (_ & _ & Hrev & _).
  destruct (call_invariants now page lang ctype b tb Hok Hnow)
    as (Hok' & Hhead' & Hdates').
  set (tb' := (create_content_if_changed now page lang ctype b tb).2) in *.
  rewrite decide_False in Hrev by done.
  assert (Hbodies : body <$> revisions page lang ctype tb'
                    = take depth (stored b
                                  :: (body <$> revisions page lang ctype tb))).
  { rewrite Hrev, fmap_take. done. }
  destruct rest as [|call' rest'].
  - simpl. by rewrite Hbodies.
  - rewrite (IH tb' (stored b)); try done.
    + rewrite Hbodies, take_app_take by done.
      rewrite (reverse_cons _ (stored b)), <- app_assoc. done.
    + apply Forall_forall. intros call Hcall.
      apply Forall_forall. intros r Hr.
      rewrite Forall_forall in Hdates'. specialize (Hdates' r Hr). simpl in Hdates'.
      rewrite Forall_forall in Hlater.
      assert (now < call.1); [|lia].
      apply Hlater. apply list_elem_of_fmap. eauto.
Qed.








(** X24: with a revision depth that is not zero, after more than [depth]
    calls with distinct stored bodies, whose clock readings increase and
    are after the creation of every revision of the tuple, the revisions of
    the tuple are those of the last [depth] calls, newest first. *)
Theorem create_content_if_changed_last_bodies page lang ctype calls tb :
  depth ≠ 0%nat →
  table_ok tb →
  (depth < length calls)%nat →
  NoDup (stored_bodies calls) →
  StronglySorted Z.lt (fst <$> calls) →
  Forall (λ call : Z * string,
            Forall (λ c, creation_date c < call.1)
              (filter_tuple page lang ctype (rows tb))) calls →
  body <$> revisions page lang ctype (run page lang ctype calls tb)
  = take depth (reverse (stored_bodies calls)).
Proof.
  intros Hdepth Hok Hlen Hnd Hsorted Hnow.
  destruct calls as [|[now b] rest]; [simpl in Hlen; lia|].
  simpl in Hlen, Hnd, Hsorted. simpl.
  apply NoDup_cons in Hnd as [Hb Hnd].
  apply StronglySorted_inv in Hsorted as [Hsorted Hlater].
  apply Forall_cons in Hnow as [Hnow Hnow_rest].
  destruct (call_invariants now page lang ctype b tb Hok Hnow)
    as (Hok1 & Hhead1 & Hdates1).
  set (tb1 := (create_content_if_changed now page lang ctype b tb).2) in *.
  rewrite (run_revisions page lang ctype rest tb1 (stored b)); try done.
  - destruct (body <$> revisions page lang ctype tb1) as [|b1 tail];
      [done|].
    injection Hhead1 as ->.
    rewrite (reverse_cons _ (stored b)), cons_middle, app_assoc.
    rewrite take_app_le; [done|].
    rewrite length_app, length_reverse, length_fmap. simpl. lia.
  - apply Forall_forall. intros call Hcall.
    apply Forall_forall. intros r Hr.
    rewrite Forall_forall in Hdates1. specialize (Hdates1 r Hr).
    simpl in Hdates1. rewrite Forall_forall in Hlater.
    assert (now < call.1); [|lia].
    apply Hlater. apply list_elem_of_fmap. eauto.
  - destruct rest; [simpl in Hlen; lia|done].
Qed.

Lemma filter_tuple_fmap page lang ctype (f : t → t) (rs : list t) :
  (∀ r, page_id (f r) = page_id r ∧ language (f r) = language r
        ∧ type (f r) = type r) →
  filter_tuple page lang ctype (f <$> rs)
  = f <$> filter_tuple page lang ctype rs.
Proof.
  intros Hf. unfold ContentManager.filter_tuple.
  induction rs as [|r rs IH]; [done|].
  rewrite fmap_cons, !filter_cons, IH.
  destruct (Hf r) as (-> & -> & ->).
  by destruct (decide (page_id r = Page.id page ∧ language r = lang
                       ∧ type r = ctype)).
Qed.

(** C9: on a table that respects its primary key, when the tuple has a
    revision [set_or_create_content] writes the body into the latest one, in
    its place in the table, and every other row, the number of rows and the
    number of revisions of the tuple are as before; when the tuple has none
    it appends exactly one row, with that body. *)
Theorem set_or_create_content_in_place now page lang ctype b tb :
  table_ok tb →
  let result := (set_or_create_content now page lang ctype b tb).1 in
  let tb' := (set_or_create_content now page lang ctype b tb).2 in
  (filter_tuple page lang ctype (rows tb) ≠ [] →
   ∃ content,
     latest (filter_tuple page lang ctype (rows tb)) = Ok content
     ∧ result = Ok (set_body content (stored b))
     ∧ rows tb'
       = ((λ r, if decide (r = content) then set_body content (stored b)
                else r) <$> rows tb)
     ∧ length (rows tb') = length (rows tb)
     ∧ length (filter_tuple page lang ctype (rows tb'))
       = length (filter_tuple page lang ctype (rows tb))
     ∧ next_id tb' = next_id tb)
  ∧ (filter_tuple page lang ctype (rows tb) = [] →
     ∃ new,
       result = Ok new
       ∧ body new = stored b
       ∧ (new ∉ rows tb)
       ∧ rows tb' = rows tb ++ [new]
       ∧ filter_tuple page lang ctype (rows tb') = [new]).
Proof.
  intros Hok result tb'. split.
  - intros Hne. destruct (latest_nonempty _ Hne) as [content Hl].
    exists content. split; [done|].
    pose proof (latest_Ok _ _ Hl) as [Hin _].
    apply list_elem_of_filter in Hin as [Htuple Hin].
    pose proof Hok as [Hnd Hkeys].
    rewrite Forall_forall in Hkeys. destruct (Hkeys content Hin) as (i & Hi & _).
    assert (Hrun : set_or_create_content now page lang ctype b tb
      = (Ok (set_body content (stored b)),
         {| rows := (λ r, if decide (r = content)
                          then set_body content (stored b) else r) <$> rows tb;
            next_id := next_id tb |})).
    { unfold ContentManager.set_or_create_content.
      unfold bind, try_except, query, ret. rewrite Hl. simpl.
      unfold ContentManager.save_m, save. simpl. rewrite Hi.
      rewrite bool_decide_eq_true_2.
      2: { rewrite <- Hi. apply list_elem_of_fmap. eauto. }
      f_equal. f_equal. apply Forall_fmap_ext, Forall_forall.
      intros r Hr. rewrite <- Hi.
      destruct (decide (r = content)) as [->|Hneq].
      - by rewrite bool_decide_eq_true_2.
      - rewrite bool_decide_eq_false_2; [done|].
        intros Hid. apply Hneq.
        by apply (NoDup_fmap_elem_inj id (rows tb)). }
    unfold result, tb'. rewrite Hrun. simpl.
    split; [done|]. split; [done|]. split; [by rewrite length_fmap|].
    split; [|done].
    rewrite filter_tuple_fmap, length_fmap; [done|].
    intros r. by destruct (decide (r = content)) as [->|].
  - intros Hnil.
    set (new := set_id (model now page lang (stored b) ctype)
                  (Some (next_id tb))).
    assert (Hrun : set_or_create_content now page lang ctype b tb
      = (Ok new, {| rows := rows tb ++ [new]; next_id := next_id tb + 1 |})).
    { unfold ContentManager.set_or_create_content.
      unfold bind, try_except, query, ret, latest. rewrite Hnil. simpl.
      reflexivity. }
    unfold result, tb'. rewrite Hrun. simpl. exists new.
    split; [done|]. split; [done|]. split.
    + intros Hin. by apply (table_ok_fresh tb new Hok Hin).
    + split; [done|].
      unfold new. by rewrite (filter_tuple_new_row now page lang ctype b tb), Hnil.
Qed.

End revisions_properties.

(** ** Content lookup with language fallback: [get_content] *)

Section get_content_properties.
Import Content ContentQuery.

Variable settings : Settings.
Variable filter_link : string → Page.t → string → string → string.

Local Abbreviation load_content_dict :=
  (ContentManager.load_content_dict settings).
Local Abbreviation get_content :=
  (ContentManager.get_content settings filter_link).
Local Abbreviation first_fallback := ContentManager.first_fallback.
Local Abbreviation languages := (GERBI_LANGUAGES settings).

(** The language has no body, or an empty one, in the dictionary. *)
Local Abbreviation no_body content_dict l :=
  (content_dict !! l = None ∨ content_dict !! l = Some ""%string).

(** The body that the fill loop stores for a language. *)
Local Abbreviation latest_body contents page ctype l :=
  (match ContentManager.get_content_object contents page l ctype with
   | Ok content => body content
   | Raise _ => ""%string
   end).

Lemma get_content_object_Raise contents page l ctype e :
  ContentManager.get_content_object contents page l ctype = Raise e →
  e = DoesNotExist.
Proof.
  unfold ContentManager.get_content_object. intros H.
  by apply latest_Raise in H as [-> _].
Qed.

(** The fill loop does not raise; it stores the latest body of every
    configured language, the empty string where there is none. *)
Lemma fill_content_dict_Ok contents page ctype langs : ∀ d : content_dict_t,
  ∃ d' : content_dict_t,
    ContentManager.fill_content_dict contents page ctype langs d = Ok d'
    ∧ ∀ l, d' !! l = if decide (l ∈ langs.*1)
                     then Some (latest_body contents page ctype l)
                     else d !! l.
Proof.
  induction langs as [|[l0 name] langs IH]; intros d; simpl.
  - exists d. split; [done|]. intros l.
    done.
  - destruct (ContentManager.get_content_object contents page l0 ctype)
      as [content|e] eqn:Hget.
    + destruct (IH (<[l0 := body content]> d)) as (d' & Hfill & Hlook).
      exists d'. split; [done|]. intros l. rewrite Hlook.
      destruct (decide (l ∈ langs.*1)) as [Hin|Hnin].
      * rewrite decide_True by (by right). done.
      * destruct (decide (l = l0)) as [->|Hne].
        -- rewrite decide_True by left. by rewrite lookup_insert_eq, Hget.
        -- rewrite decide_False by (by intros [?|?]%elem_of_cons).
           by rewrite lookup_insert_ne.
    + apply get_content_object_Raise in Hget as Hexn. subst e.
      destruct (IH (<[l0 := ""%string]> d)) as (d' & Hfill & Hlook).
      exists d'. split; [done|]. intros l. rewrite Hlook.
      destruct (decide (l ∈ langs.*1)) as [Hin|Hnin].
      * rewrite decide_True by (by right). done.
      * destruct (decide (l = l0)) as [->|Hne].
        -- rewrite decide_True by left. by rewrite lookup_insert_eq, Hget.
        -- rewrite decide_False by (by intros [?|?]%elem_of_cons).
           by rewrite lookup_insert_ne.
Qed.

Lemma first_fallback_first (content_dict : content_dict_t) l1 l name l2 b :
  Forall (λ x : string * string, no_body content_dict x.1) l1 →
  content_dict !! l = Some b → b ≠ ""%string →
  first_fallback (l1 ++ (l, name) :: l2) content_dict = Some (l, b).
Proof.
  intros Hl1 Hb Hne. induction Hl1 as [|x l1 Hx _ IH]; simpl.
  - rewrite Hb. unfold Py.truthy. by rewrite bool_decide_eq_true_2.
  - destruct Hx as [->| ->]; [done|].
    unfold Py.truthy. by rewrite bool_decide_eq_false_2 by (intros H; by apply H).
Qed.

Lemma first_fallback_none (content_dict : content_dict_t) langs :
  Forall (λ x : string * string, no_body content_dict x.1) langs →
  first_fallback langs content_dict = None.
Proof.
  induction 1 as [|x langs Hx _ IH]; simpl; [done|].
  destruct Hx as [->| ->]; [done|].
  unfold Py.truthy. by rewrite bool_decide_eq_false_2 by (intros H; by apply H).
Qed.

(** The key of the dictionary of a page and a type. *)
Local Abbreviation key_of page ctype :=
  (ContentManager.GERBI_CONTENT_DICT_KEY (Page.id page) ctype
     (match Page.freeze_date page with Some _ => 1 | None => 0 end)).

(** Loading does not raise.  The dictionary is the one of the memo of the
    page when that is not empty, else the one of the shared cache when that
    is not empty, else a fresh one, with the latest body of every configured
    language, that is written to the memo and to the cache. *)
Lemma load_content_dict_Ok contents page ctype (cache : cache_t) :
  let memo : cache_t := default ∅ (Page._content_dict page) in
  ∃ (content_dict : content_dict_t) page' (cache' : cache_t),
    load_content_dict contents page ctype cache
    = (Ok (content_dict, page'), cache')
    ∧ (ContentManager.truthy_dict (memo !! key_of page ctype) = true →
       memo !! key_of page ctype = Some content_dict ∧ cache' = cache)
    ∧ (ContentManager.truthy_dict (memo !! key_of page ctype) = false →
       ContentManager.truthy_dict (cache !! key_of page ctype) = true →
       cache !! key_of page ctype = Some content_dict ∧ cache' = cache)
    ∧ (ContentManager.truthy_dict (memo !! key_of page ctype) = false →
       ContentManager.truthy_dict (cache !! key_of page ctype) = false →
       (∀ l, content_dict !! l
             = if decide (l ∈ languages.*1)
               then Some (latest_body contents page ctype l) else None)
       ∧ cache' = <[key_of page ctype := content_dict]> cache
       ∧ Page._content_dict page'
         = Some (<[key_of page ctype := content_dict]> memo)).
Proof.
  intros memo. unfold ContentManager.load_content_dict. fold memo.
  destruct (fill_content_dict_Ok contents page ctype languages ∅)
    as (fresh & Hfill & Hlook).
  unfold bind, ret, gets, query, modify.
  destruct (ContentManager.truthy_dict (memo !! key_of page ctype)) eqn:Hmemo.
  - rewrite Hmemo. simpl.
    destruct (memo !! key_of page ctype) as [d|] eqn:Hd; [|done].
    eexists _, _, _. split; [reflexivity|]. simpl. repeat split; done.
  - destruct (ContentManager.truthy_dict (cache !! key_of page ctype))
      eqn:Hcache; simpl.
    + destruct (cache !! key_of page ctype) as [d|] eqn:Hd; [|done].
      eexists _, _, _. split; [reflexivity|]. simpl. repeat split; done.
    + rewrite Hfill. eexists _, _, _. split; [reflexivity|]. simpl.
      split; [done|]. split; [done|]. intros _ _. split; [|done].
      intros l. rewrite Hlook. by rewrite lookup_empty.
Qed.

(** C5 (as amended): [get_content] does not raise.  With [lang] the
    requested language, or the default language when the requested one is
    empty, and [content_dict] the dictionary that is loaded (which, when it
    is neither in the memo of the page nor in the cache, holds the latest
    body of every configured language): when [lang] has
    a body that is not empty the result is the link filter applied to it;
    when it has none and the fallback is on, the result is the link filter
    applied to the body of the first configured language that has one; when
    the fallback is off or no configured language has a body, the result is
    the empty string. *)
Theorem get_content_language_fallback contents page language ctype
    language_fallback (cache : cache_t) :
  let lang := if decide (language = "") then GERBI_DEFAULT_LANGUAGE settings
              else language in
  let out := get_content contents page language ctype language_fallback cache in
  let memo : cache_t := default ∅ (Page._content_dict page) in
  ∃ (content_dict : content_dict_t) page',
    load_content_dict contents page ctype cache
    = (Ok (content_dict, page'), out.2)
    ∧ (ContentManager.truthy_dict (memo !! key_of page ctype) = false →
       ContentManager.truthy_dict (cache !! key_of page ctype) = false →
       ∀ l, content_dict !! l
            = if decide (l ∈ languages.*1)
              then Some (latest_body contents page ctype l) else None)
    ∧ (∃ s, out.1 = Ok (s, page'))
    ∧ (∀ b, content_dict !! lang = Some b → b ≠ "" →
            out.1 = Ok (filter_link b page' lang ctype, page'))
    ∧ (no_body content_dict lang → language_fallback = true →
       ∀ l1 l name l2 b,
         languages = l1 ++ (l, name) :: l2 →
         Forall (λ x : string * string, no_body content_dict x.1) l1 →
         content_dict !! l = Some b → b ≠ "" →
         out.1 = Ok (filter_link b page' l ctype, page'))
    ∧ (no_body content_dict lang →
       language_fallback = false
       ∨ Forall (λ x : string * string, no_body content_dict x.1) languages →
       out.1 = Ok ("", page')).
Proof.
  intros lang out memo.
  destruct (load_content_dict_Ok contents page ctype cache)
    as (content_dict & page' & cache' & Hload & _ & _ & Hfresh).
  assert (Hlang : (if Py.truthy language then language
                   else GERBI_DEFAULT_LANGUAGE settings) = lang).
  { unfold lang, Py.truthy. destruct (decide (language = "")) as [->|Hne].
    - done.
    - by rewrite bool_decide_eq_true_2. }
  assert (Hout : out =
    match content_dict !! lang with
    | Some b =>
        if Py.truthy b
        then (Ok (filter_link b page' lang ctype, page'), cache')
        else (Ok (ContentManager.fallback settings filter_link
                    language_fallback content_dict page' ctype, page'), cache')
    | None =>
        (Ok (ContentManager.fallback settings filter_link
               language_fallback content_dict page' ctype, page'), cache')
    end).
  { unfold out, ContentManager.get_content, bind. rewrite Hload, Hlang. simpl.
    destruct (content_dict !! lang) as [b|]; [|done].
    by destruct (Py.truthy b). }
  assert (Hcache : out.2 = cache').
  { rewrite Hout. destruct (content_dict !! lang) as [b|]; [|done].
    by destruct (Py.truthy b). }
  exists content_dict, page'. rewrite Hcache. split; [done|].
  split; [intros Hmemo Hshared; by apply Hfresh|].
  split.
  { rewrite Hout. destruct (content_dict !! lang) as [b|]; [|by eexists].
    destruct (Py.truthy b); by eexists. }
  assert (Hempty : no_body content_dict lang →
    out.1 = Ok (ContentManager.fallback settings filter_link
                  language_fallback content_dict page' ctype, page')).
  { intros Hno. rewrite Hout. destruct Hno as [->| ->]; [done|].
    unfold Py.truthy.
    by rewrite bool_decide_eq_false_2 by (intros H; by apply H). }
  split; [|split].
  - intros b Hb Hne. rewrite Hout, Hb. unfold Py.truthy.
    by rewrite bool_decide_eq_true_2.
  - intros Hno -> l1 l name l2 b Hsplit Hl1 Hb Hne.
    rewrite (Hempty Hno). unfold ContentManager.fallback.
    by rewrite Hsplit, (first_fallback_first content_dict l1 l name l2 b).
  - intros Hno Hoff. rewrite (Hempty Hno). unfold ContentManager.fallback.
    destruct Hoff as [->|Hall]; [done|].
    rewrite (first_fallback_none content_dict languages Hall).
    by destruct language_fallback.
Qed.

End get_content_properties.

(** * The properties on the sample site *)

Section sample_site.
Import Sample.

Example strip_slashes_slash :
  PageManager.strip_slashes "/" = "" ∧ PageManager.strip_slashes "//" = ""
  ∧ PageManager.strip_slashes "/home/about/" = "home/about"
  ∧ PageManager.strip_slashes "//home//" = "/home/".
Proof. repeat split; reflexivity. Qed.

Example from_path_home_news_team :
  PageManager.from_path settings get_slug get_complete_slug pages
    (Content.rows contents) "/home/news/team/" "en" true
  = Ok (Some news_team).
Proof. vm_compute. reflexivity. Qed.

(** The path [/] resolves to [home], the first root page of site 1. *)
Lemma from_path_empty_path_root_witness :
  PageManager.strip_slashes "/" = ""
  ∧ PageManager.from_path settings get_slug get_complete_slug pages
      (Content.rows contents) "/" "en" true = Ok (Some home).
Proof.
  split; [reflexivity|].
  apply (from_path_empty_path_root settings get_slug get_complete_slug pages
           (Content.rows contents) "/" "en" true eq_refl)
    with (l1 := [other_site_root]) (l2 := [about; about_team; news; news_team]).
  - reflexivity.
  - split; [reflexivity|]. intros _. vm_compute. left.
  - constructor; [|constructor]. intros [_ Hsite].
    specialize (Hsite eq_refl). vm_compute in Hsite.
    apply list_elem_of_singleton in Hsite. discriminate.
Defined.

(** The path [/home/about/] has the single candidate [about]. *)
Lemma from_path_single_candidate_witness :
  PageManager.strip_slashes "/home/about/" ≠ ""
  ∧ PageManager.pages_list settings get_slug pages (Content.rows contents)
      (PageManager.strip_slashes "/home/about/") true = [about]
  ∧ PageManager.from_path settings get_slug get_complete_slug pages
      (Content.rows contents) "/home/about/" "en" true = Ok (Some about).
Proof.
  assert (Hne : PageManager.strip_slashes "/home/about/" ≠ "")
    by (vm_compute; discriminate).
  assert (Hone : PageManager.pages_list settings get_slug pages
                   (Content.rows contents)
                   (PageManager.strip_slashes "/home/about/") true = [about])
    by (vm_compute; reflexivity).
  split; [exact Hne|]. split; [exact Hone|].
  destruct (from_path_single_candidate settings get_slug get_complete_slug
              pages (Content.rows contents) "/home/about/" "en" true about
              Hne Hone) as [_ Hstrict].
  destruct (Hstrict eq_refl) as [Hiff _].
  apply Hiff. vm_compute. reflexivity.
Defined.

(** The path [/home/news/team/] has the candidates [about_team] and
    [news_team]; the second is the first whose complete slug is the path. *)
Lemma from_path_many_candidates_witness :
  PageManager.strip_slashes "/home/news/team/" ≠ ""
  ∧ PageManager.pages_list settings get_slug pages (Content.rows contents)
      (PageManager.strip_slashes "/home/news/team/") true
    = [about_team; news_team]
  ∧ PageManager.from_path settings get_slug get_complete_slug pages
      (Content.rows contents) "/home/news/team/" "en" true
    = Ok (Some news_team).
Proof.
  assert (Hne : PageManager.strip_slashes "/home/news/team/" ≠ "")
    by (vm_compute; discriminate).
  split; [exact Hne|]. split; [vm_compute; reflexivity|].
  destruct (from_path_many_candidates settings get_slug get_complete_slug
              pages (Content.rows contents) "/home/news/team/" "en" true Hne)
    as (_ & Hmany & _).
  destruct Hmany as [Hfirst _]; [vm_compute; lia|].
  apply (Hfirst [about_team] news_team []).
  - vm_compute. reflexivity.
  - constructor; [|constructor]. vm_compute. discriminate.
  - vm_compute. reflexivity.
Defined.

Lemma aliases_NoDup : NoDup (map PageAlias.url aliases).
Proof. refine (bool_decide_unpack _ _). vm_compute. exact I. Qed.

(** With the query string [page=1], the alias stored under
    [/foo/bar?page=1] is found, not the one under [/foo/bar]. *)
Lemma alias_from_path_two_phases_witness :
  NoDup (map PageAlias.url aliases)
  ∧ PageAliasManager.from_path normalize_url aliases (request "page=1")
      "/foo/bar/" "en"
    = Ok (Some (alias 2 3 "/foo/bar?page=1")).
Proof.
  split; [exact aliases_NoDup|].
  destruct (alias_from_path_two_phases normalize_url aliases
              (request "page=1") "/foo/bar/" "en" aliases_NoDup)
    as (Hqualified & _ & _).
  apply (Hqualified "page=1").
  - vm_compute. reflexivity.
  - discriminate.
  - vm_compute. right. left.
  - vm_compute. reflexivity.
Defined.

Lemma contents_ok : Content.table_ok contents.
Proof.
  split.
  - refine (bool_decide_unpack _ _). vm_compute. exact I.
  - repeat constructor; eexists; (split; [reflexivity|]); reflexivity.
Qed.

Lemma contents_home_body_dates now :
  130 < now →
  Forall (λ c, Content.creation_date c < now)
    (ContentManager.filter_tuple home "en" "body" (Content.rows contents)).
Proof.
  intros Hnow. vm_compute ContentManager.filter_tuple.
  repeat constructor; simpl; lia.
Qed.

(** The body of [home] has three revisions, more than the depth 2; a call
    with the body of the latest one returns it and changes nothing. *)
Lemma create_content_if_changed_same_body_noop_witness :
  ContentQuery.latest
    (ContentManager.filter_tuple home "en" "body" (Content.rows contents))
  = Ok (content 9 1 "en" "body" 130 "third")
  ∧ length (ContentManager.filter_tuple home "en" "body"
              (Content.rows contents)) = 3%nat
  ∧ ContentManager.create_content_if_changed settings sanitize 200 home "en"
      "body" "third" contents
    = (Ok (content 9 1 "en" "body" 130 "third"), contents).
Proof.
  split; [vm_compute; reflexivity|]. split; [vm_compute; reflexivity|].
  apply (create_content_if_changed_same_body_noop settings sanitize 200 home
           "en" "body" "third" contents (content 9 1 "en" "body" 130 "third")).
  - vm_compute. reflexivity.
  - reflexivity.
Defined.

(** Two calls with the body of the latest revision insert no row: the
    count of new rows is not one. *)
Lemma create_content_if_changed_twice_counterexample :
  let first := ContentManager.create_content_if_changed settings sanitize 200
                 home "en" "body" "third" contents in
  let second := ContentManager.create_content_if_changed settings sanitize 201
                  home "en" "body" "third" first.2 in
  filter (λ r, r ∉ Content.rows contents) (Content.rows second.2) = []
  ∧ length (filter (λ r, r ∉ Content.rows contents) (Content.rows second.2))
    ≠ 1%nat.
Proof. vm_compute. split; [reflexivity|discriminate]. Qed.

(** Two calls with a new body insert one row. *)
Lemma create_content_if_changed_twice_witness :
  Content.table_ok contents
  ∧ (let first := ContentManager.create_content_if_changed settings sanitize
                    200 home "en" "body" "fourth" contents in
     let second := ContentManager.create_content_if_changed settings sanitize
                     201 home "en" "body" "fourth" first.2 in
     second = first
     ∧ filter (λ r, r ∉ Content.rows contents) (Content.rows second.2)
       = [content 11 1 "en" "body" 200 "fourth"]).
Proof.
  split; [exact contents_ok|].
  destruct (create_content_if_changed_twice settings sanitize 200 201 home
              "en" "body" "fourth" contents contents_ok
              (contents_home_body_dates 200 eq_refl))
    as (Hsame & c & Hfirst & Hbody & Hnew & _).
  split; [exact Hsame|].
  rewrite Hnew.
  - vm_compute in Hfirst. by injection Hfirst as <-.
  - intros c0 Hc0. vm_compute in Hc0. injection Hc0 as <-. discriminate.
Defined.



(** Three calls with distinct bodies and increasing clock readings at depth
    2 leave the bodies of the last two. *)
Lemma create_content_if_changed_last_bodies_witness :
  GERBI_CONTENT_REVISION_DEPTH settings ≠ 0%nat
  ∧ Content.body
      <$> ContentQuery.order_by_creation_date_desc
            (ContentManager.filter_tuple home "en" "body"
               (Content.rows
                  (foldl (λ tb0 (call : Z * string),
                            (ContentManager.create_content_if_changed settings
                               sanitize call.1 home "en" "body" call.2 tb0).2)
                     contents [(200, "a"); (210, "b"); (220, "c")])))
    = ["c"; "b"].
Proof.
  assert (Hdepth : GERBI_CONTENT_REVISION_DEPTH settings ≠ 0%nat)
    by discriminate.
  split; [exact Hdepth|].
  apply (create_content_if_changed_last_bodies settings sanitize home "en"
           "body" [(200, "a"); (210, "b"); (220, "c")] contents Hdepth
           contents_ok).
  - vm_compute. lia.
  - refine (bool_decide_unpack _ _). vm_compute. exact I.
  - repeat constructor.
  - repeat constructor; simpl; lia.
Defined.

(** The latest revision of the body of [home] is overwritten in place. *)
Lemma set_or_create_content_in_place_witness :
  Content.table_ok contents
  ∧ ContentManager.set_or_create_content settings sanitize 200 home "en"
      "body" "edited" contents
    = (Ok (content 9 1 "en" "body" 130 "edited"),
       {| Content.rows :=
            <[8%nat := content 9 1 "en" "body" 130 "edited"]>
              (Content.rows contents);
          Content.next_id := 11 |}).
Proof.
  split; [exact contents_ok|].
  destruct (set_or_create_content_in_place settings sanitize 200 home "en"
              "body" "edited" contents contents_ok) as [Hsome _].
  destruct Hsome as (c & Hl & Hres & Hrows & _ & _ & Hnext);
    [vm_compute; discriminate|].
  vm_compute in Hl. injection Hl as <-.
  destruct (ContentManager.set_or_create_content settings sanitize 200 home
              "en" "body" "edited" contents) as [r [rs n]].
  simpl in *. subst r rs n. vm_compute. reflexivity.
Defined.

Example load_content_dict_home :
  ContentManager.load_content_dict settings (Content.rows contents) home
    "body" ∅
  = (Ok (home_dict, home_loaded), {[ home_key := home_dict ]}).
Proof. vm_compute. reflexivity. Qed.

(** The empty language stands for the default language, whose body is
    returned although the fallback is off and the dictionary has no body
    for the empty language; and the result is what the link filter makes of
    the body, whatever the link filter. *)
Lemma get_content_language_fallback_counterexample :
  (home_dict !! "" = None
   ∧ (ContentManager.get_content settings filter_link
        (Content.rows contents) home "" "body" false ∅).1
     = Ok ("third", home_loaded))
  ∧ (home_dict !! "en" = Some "third"
     ∧ ∀ link_filter : string → Page.t → string → string → string,
         (ContentManager.get_content settings link_filter
            (Content.rows contents) home "en" "body" false ∅).1
         = Ok (link_filter "third" home_loaded "en" "body", home_loaded)).
Proof.
  split; (split; [vm_compute; reflexivity|]).
  - vm_compute. reflexivity.
  - intros link_filter. vm_compute. reflexivity.
Qed.

End sample_site.

(** * Further properties of the managers *)

(** ** [PageManager.from_path]: what it returns and what it never does *)

Section from_path_further.

Variable settings : Settings.
Variable get_slug : string → string.
Variable get_complete_slug : Page.t → string → string.

Local Abbreviation strip_slashes := PageManager.strip_slashes.
Local Abbreviation pages_list := (PageManager.pages_list settings get_slug).
Local Abbreviation from_path :=
  (PageManager.from_path settings get_slug get_complete_slug).

Lemma first_complete_slug_Some lang complete_path l p :
  PageManager.first_complete_slug get_complete_slug lang complete_path l
    = Some p →
  p ∈ l ∧ get_complete_slug p lang = complete_path.
Proof.
  induction l as [|q l IH]; simpl; [done|].
  case_bool_decide as Hq.
  - intros [= <-]. split; [left|done].
  - intros H. destruct (IH H) as [Hin Hslug]. split; [by right|done].
Qed.

(** The ways in which [from_path] comes to return a page. *)
Lemma from_path_Some_inv pages contents complete_path lang exclude_drafts p :
  from_path pages contents complete_path lang exclude_drafts = Ok (Some p) →
  let cp := strip_slashes complete_path in
  let candidates := pages_list pages contents cp exclude_drafts in
  (cp = "" ∧ ∃ rest, PageManager.root settings pages = p :: rest)
  ∨ (cp ≠ "" ∧ p ∈ candidates
     ∧ ((candidates = [p] ∧ GERBI_USE_STRICT_URL settings = false)
        ∨ get_complete_slug p lang = cp)).
Proof.
  intros H cp candidates. unfold PageManager.from_path in H.
  fold cp in H. case_bool_decide as Hcp.
  - left. split; [done|].
    destruct (PageManager.root settings pages) as [|q rest]; [done|].
    rewrite bool_decide_eq_true_2 in H by done. simpl in H.
    injection H as ->. eauto.
  - right. split; [done|]. fold candidates in H.
    case_bool_decide as Hone.
    + destruct candidates as [|q [|? ?]]; try done. simpl in H.
      destruct (GERBI_USE_STRICT_URL settings).
      * simpl in H. case_bool_decide as Hslug; [done|].
        simpl in H. injection H as ->. split; [left|].
        right. destruct (decide (get_complete_slug p lang = cp)) as [|Hne];
          [done|by destruct Hslug].
      * simpl in H. injection H as ->. split; [left|]. by left.
    + case_bool_decide as Hmany; [|done].
      destruct (PageManager.first_complete_slug get_complete_slug lang cp
                  candidates) as [q|] eqn:Hfirst; [|done].
      injection H as ->.
      apply first_complete_slug_Some in Hfirst as [Hin Hslug].
      split; [done|]. by right.
Qed.

(** X1: [from_path] does not raise: the index [0] is only taken of a
    sequence that has an element. *)
Theorem from_path_never_raises pages contents complete_path lang
    exclude_drafts :
  ∃ r, from_path pages contents complete_path lang exclude_drafts = Ok r.
Proof.
  unfold PageManager.from_path.
  case_bool_decide as Hcp.
  - destruct (PageManager.root settings pages) as [|q rest].
    + rewrite bool_decide_eq_false_2 by (intros H; by apply H). eauto.
    + rewrite bool_decide_eq_true_2 by done. simpl. eauto.
  - set (candidates := PageManager.pages_list _ _ _ _ _ _).
    case_bool_decide as Hone.
    + destruct candidates as [|q [|? ?]]; try done. simpl.
      destruct (GERBI_USE_STRICT_URL settings); simpl.
      * case_bool_decide; simpl; eauto.
      * eauto.
    + case_bool_decide; [|eauto].
      destruct (PageManager.first_complete_slug _ _ _ _); eauto.
Qed.

(** X2: a page that [from_path] returns is a page of the table in the site
    scope; for the empty path it has no parent; for another path it has a
    row of type slug whose body is the slug of the path, and it is not a
    draft when drafts are excluded. *)
Theorem from_path_result_sound pages contents complete_path lang
    exclude_drafts p :
  from_path pages contents complete_path lang exclude_drafts = Ok (Some p) →
  p ∈ pages
  ∧ (GERBI_USE_SITE_ID settings = true → SITE_ID settings ∈ Page.sites p)
  ∧ (strip_slashes complete_path = "" → Page.parent p = None)
  ∧ (strip_slashes complete_path ≠ "" →
     (exclude_drafts = true → Page.status p ≠ Page.DRAFT)
     ∧ ∃ c, c ∈ contents ∧ Content.type c = "slug"
            ∧ Content.body c = get_slug (strip_slashes complete_path)
            ∧ Content.page_id c = Page.id p).
Proof.
  intros H. apply from_path_Some_inv in H as [[Hcp [rest Hroot]]|(Hcp & Hin & _)].
  - assert (Hp : p ∈ PageManager.root settings pages)
      by (rewrite Hroot; left).
    apply (root_spec settings get_complete_slug) in Hp
      as (Hin & Hparent & Hsite).
    split; [done|]. split; [done|]. split; [done|].
    intros Hne. by destruct Hne.
  - apply (pages_list_spec settings get_slug get_complete_slug) in Hin
      as (Hin & Hsite & Hdraft & Hslug).
    split; [done|]. split; [done|]. split; [intros Hempty; by destruct Hcp|].
    intros _. split; done.
Qed.

(** X3: with strict URLs, whatever the number of candidates, the complete
    slug of a page returned for a path that is not empty is that path
    without its outer slashes. *)
Theorem from_path_strict_complete_slug pages contents complete_path lang
    exclude_drafts p :
  GERBI_USE_STRICT_URL settings = true →
  strip_slashes complete_path ≠ "" →
  from_path pages contents complete_path lang exclude_drafts = Ok (Some p) →
  get_complete_slug p lang = strip_slashes complete_path.
Proof.
  intros Hstrict Hcp H.
  apply from_path_Some_inv in H as [[Hempty _]|(_ & _ & [[_ Hlax]|Hslug])].
  - done.
  - congruence.
  - done.
Qed.

Lemma endswith_snoc s c : Py.endswith (s +:+ String c "") c = true.
Proof.
  induction s as [|a s IH]; simpl.
  - by rewrite bool_decide_eq_true_2.
  - destruct (s +:+ String c "") eqn:Hs; [by destruct s|done].
Qed.

Lemma drop_last_snoc s c : Py.drop_last (s +:+ String c "") = s.
Proof.
  induction s as [|a s IH]; [done|].
  change (String a s +:+ String c "") with (String a (s +:+ String c "")).
  simpl. destruct (s +:+ String c "") eqn:Hs; [by destruct s|].
  by rewrite IH.
Qed.

Lemma strip_slashes_outer s :
  Py.startswith s "/" = false → Py.endswith s "/" = false →
  strip_slashes s = s
  ∧ strip_slashes ("/" +:+ s) = s
  ∧ strip_slashes (s +:+ "/") = s
  ∧ strip_slashes ("/" +:+ s +:+ "/") = s.
Proof.
  intros Hstart Hend. unfold PageManager.strip_slashes. repeat split.
  - by rewrite Hend, Hstart.
  - destruct s as [|a s]; [done|].
    change (Py.endswith ("/" +:+ String a s) "/")
      with (Py.endswith (String a s) "/").
    by rewrite Hend.
  - by rewrite endswith_snoc, drop_last_snoc, Hstart.
  - change ("/" +:+ s +:+ "/") with (String "/" s +:+ "/").
    by rewrite endswith_snoc, drop_last_snoc.
Qed.

(** X4: the outer slashes of a path are optional: a path that neither
    starts nor ends with a slash resolves as it does with a leading slash,
    a trailing slash, or both. *)
Theorem from_path_optional_slashes pages contents s lang exclude_drafts :
  Py.startswith s "/" = false → Py.endswith s "/" = false →
  from_path pages contents ("/" +:+ s) lang exclude_drafts
    = from_path pages contents s lang exclude_drafts
  ∧ from_path pages contents (s +:+ "/") lang exclude_drafts
    = from_path pages contents s lang exclude_drafts
  ∧ from_path pages contents ("/" +:+ s +:+ "/") lang exclude_drafts
    = from_path pages contents s lang exclude_drafts.
Proof.
  intros Hstart Hend.
  destruct (strip_slashes_outer s Hstart Hend) as (H0 & H1 & H2 & H3).
  unfold PageManager.from_path. by rewrite H0, H1, H2, H3.
Qed.

(** X5: [get_page_ids_by_slug] lists every page once, and lists a page
    exactly when one of its rows of type slug, of any language and any age,
    has the slug as body. *)
Theorem get_page_ids_by_slug_spec contents slug :
  NoDup (ContentManager.get_page_ids_by_slug contents slug)
  ∧ ∀ i, i ∈ ContentManager.get_page_ids_by_slug contents slug
         ↔ ∃ c, c ∈ contents ∧ Content.type c = "slug"
                ∧ Content.body c = slug ∧ Content.page_id c = i.
Proof.
  unfold ContentManager.get_page_ids_by_slug. split.
  - apply NoDup_remove_dups.
  - intros i. rewrite elem_of_remove_dups, list_elem_of_fmap. split.
    + intros (c & -> & Hc). apply list_elem_of_filter in Hc as [[? ?] ?].
      eauto 6.
    + intros (c & Hc & Hty & Hb & <-). exists c. split; [done|].
      apply list_elem_of_filter. auto.
Qed.

End from_path_further.

(** ** The status and date filters of [PageManager] *)

Section status_filters.

Variable settings : Settings.
Variable publication_date : Page.t → option Z.
Variable publication_end_date : Page.t → option Z.
Variable GERBI_SHOW_START_DATE : bool.
Variable GERBI_SHOW_END_DATE : bool.

Local Abbreviation on_site := (PageManager.on_site settings).
Local Abbreviation root := (PageManager.root settings).
Local Abbreviation navigation := (PageManager.navigation settings).
Local Abbreviation hidden := (PageManager.hidden settings).
Local Abbreviation filter_published :=
  (PageManager.filter_published settings publication_date
     publication_end_date GERBI_SHOW_START_DATE GERBI_SHOW_END_DATE).
Local Abbreviation published :=
  (PageManager.published settings publication_date publication_end_date
     GERBI_SHOW_START_DATE GERBI_SHOW_END_DATE).
Local Abbreviation drafts :=
  (PageManager.drafts settings publication_date GERBI_SHOW_START_DATE).
Local Abbreviation expired :=
  (PageManager.expired settings publication_end_date).

(** A filter that a setting switches on. *)
Lemma filter_if {A} (flag : bool) (P : A → Prop) `{!∀ x, Decision (P x)}
    (l : list A) :
  (if flag then filter P l else l) = filter (λ x, flag = true → P x) l.
Proof.
  destruct flag.
  - apply list_filter_iff. intros x. split; [by intros ? _|auto].
  - induction l as [|x l IH]; [done|].
    rewrite filter_cons_True by done. by rewrite <- IH.
Qed.

Lemma lte_spec column value :
  Lookup.lte column value ↔ ∃ d, column = Some d ∧ d ≤ value.
Proof.
  destruct column as [d|]; simpl; split.
  - eauto.
  - by intros (d' & [= <-] & H).
  - done.
  - by intros (d' & Hd & _).
Qed.

Lemma gt_spec column value :
  Lookup.gt column value ↔ ∃ d, column = Some d ∧ value < d.
Proof.
  destruct column as [d|]; simpl; split.
  - eauto.
  - by intros (d' & [= <-] & H).
  - done.
  - by intros (d' & Hd & _).
Qed.

(** [filter_published] is one filter, by the conjunction of its stages. *)
Lemma filter_published_filter now_start now_end queryset :
  filter_published now_start now_end queryset
  = filter (λ p,
      (GERBI_SHOW_END_DATE = true →
       Lookup.gt (publication_end_date p) now_end
       ∨ Lookup.isnull (publication_end_date p))
      ∧ (GERBI_SHOW_START_DATE = true →
         Lookup.lte (publication_date p) now_start)
      ∧ Page.status p = Page.PUBLISHED
      ∧ (GERBI_USE_SITE_ID settings = true → SITE_ID settings ∈ Page.sites p))
      queryset.
Proof.
  unfold PageManager.filter_published.
  rewrite (filter_if GERBI_SHOW_END_DATE), (filter_if GERBI_SHOW_START_DATE),
    (filter_if (GERBI_USE_SITE_ID settings)).
  rewrite !list_filter_filter. apply list_filter_iff. intros p. tauto.
Qed.

(** X6: the navigation is the published part of the root pages, in their
    order. *)
Theorem navigation_published_roots pages :
  navigation pages = filter (λ p, Page.status p = Page.PUBLISHED) (root pages)
  ∧ navigation pages `sublist_of` root pages.
Proof.
  assert (Heq : navigation pages
                = filter (λ p, Page.status p = Page.PUBLISHED) (root pages)).
  { unfold PageManager.navigation, PageManager.root.
    rewrite !list_filter_filter. apply list_filter_iff. intros p. tauto. }
  split; [exact Heq|]. rewrite Heq. apply sublist_filter.
Qed.

(** X7: [filter_published] keeps, in their order, the pages of the query
    that are on the site (when sites are used), have the status PUBLISHED,
    have (when start dates are shown) a publication date that is set and
    not after the first clock reading, and have (when end dates are shown)
    no publication end date or one after the second clock reading. *)
Theorem filter_published_spec now_start now_end queryset :
  filter_published now_start now_end queryset `sublist_of` queryset
  ∧ ∀ p, p ∈ filter_published now_start now_end queryset ↔
      p ∈ queryset
      ∧ (GERBI_USE_SITE_ID settings = true → SITE_ID settings ∈ Page.sites p)
      ∧ Page.status p = Page.PUBLISHED
      ∧ (GERBI_SHOW_START_DATE = true →
         ∃ d, publication_date p = Some d ∧ d ≤ now_start)
      ∧ (GERBI_SHOW_END_DATE = true →
         publication_end_date p = None
         ∨ ∃ d, publication_end_date p = Some d ∧ now_end < d).
Proof.
  rewrite filter_published_filter. split; [apply sublist_filter|].
  intros p. rewrite list_elem_of_filter, lte_spec, gt_spec.
  unfold Lookup.isnull. tauto.
Qed.

Lemma elem_of_drafts now pages p :
  p ∈ drafts now pages → Page.status p = Page.DRAFT.
Proof.
  unfold PageManager.drafts. rewrite (filter_if GERBI_SHOW_START_DATE).
  rewrite !list_elem_of_filter. tauto.
Qed.

Lemma elem_of_published now_start now_end pages p :
  p ∈ published now_start now_end pages → Page.status p = Page.PUBLISHED.
Proof.
  unfold PageManager.published. rewrite filter_published_filter.
  rewrite list_elem_of_filter. tauto.
Qed.

Lemma elem_of_navigation pages p :
  p ∈ navigation pages → Page.status p = Page.PUBLISHED.
Proof.
  unfold PageManager.navigation. rewrite !list_elem_of_filter. tauto.
Qed.

(** X8: when end dates are shown, a page that is published at a clock
    reading is not expired at that reading or an earlier one. *)
Theorem published_not_expired now_start now_end now pages p :
  GERBI_SHOW_END_DATE = true →
  now ≤ now_end →
  p ∈ published now_start now_end pages →
  p ∉ expired now pages.
Proof.
  intros Hshow Hnow Hpub Hexp.
  unfold PageManager.published in Hpub.
  rewrite filter_published_filter in Hpub.
  apply list_elem_of_filter in Hpub as [(Hend & _) _].
  apply list_elem_of_filter in Hexp as [Hlte _].
  apply lte_spec in Hlte as (d & Hd & Hle).
  destruct (Hend Hshow) as [Hgt|Hnull].
  - apply gt_spec in Hgt as (d' & Hd' & Hlt). simplify_eq. lia.
  - unfold Lookup.isnull in Hnull. congruence.
Qed.

(** X9: the filters by status do not overlap: a hidden page is not in the
    navigation, not published and not a draft, and a draft is not in the
    navigation and not published. *)
Theorem status_filters_disjoint now_start now_end now pages p :
  (p ∈ hidden pages →
   (p ∉ navigation pages) ∧ (p ∉ published now_start now_end pages)
   ∧ (p ∉ drafts now pages))
  ∧ (p ∈ drafts now pages →
     (p ∉ navigation pages) ∧ (p ∉ published now_start now_end pages)).
Proof.
  split.
  - intros Hhidden. apply list_elem_of_filter in Hhidden as [Hstatus _].
    split; [|split].
    + intros H%elem_of_navigation. congruence.
    + intros H%elem_of_published. congruence.
    + intros H%elem_of_drafts. congruence.
  - intros Hdraft%elem_of_drafts. split.
    + intros H%elem_of_navigation. congruence.
    + intros H%elem_of_published. congruence.
Qed.

(** X10: filtering published pages twice, at the same clock readings, is
    filtering them once. *)
Theorem filter_published_idempotent now_start now_end queryset :
  filter_published now_start now_end
    (filter_published now_start now_end queryset)
  = filter_published now_start now_end queryset.
Proof.
  rewrite !filter_published_filter, list_filter_filter.
  apply list_filter_iff. intros p. tauto.
Qed.

End status_filters.

(** ** Writing content: what the table keeps *)

Section content_writes.
Import Content ContentQuery.

Variable settings : Settings.
Variable sanitize : string → string.

Local Abbreviation filter_tuple := ContentManager.filter_tuple.
Local Abbreviation model := ContentManager.model.
Local Abbreviation get_content_object := ContentManager.get_content_object.
Local Abbreviation set_or_create_content :=
  (ContentManager.set_or_create_content settings sanitize).
Local Abbreviation create_content_if_changed :=
  (ContentManager.create_content_if_changed settings sanitize).
Local Abbreviation depth := (GERBI_CONTENT_REVISION_DEPTH settings).
Local Abbreviation stored b :=
  (if GERBI_SANITIZE_USER_INPUT settings then sanitize b%string else b%string).
Local Abbreviation in_tuple page lang ctype r :=
  (page_id r = Page.id page ∧ language r = lang ∧ type r = ctype).

(** The row that an insertion adds. *)
Local Abbreviation inserted now page lang ctype b tb :=
  (set_id (model now page lang (stored b) ctype) (Some (next_id tb))).

(** The row that an overwrite puts in the place of [content]. *)
Local Abbreviation overwrite content b :=
  (λ r, if decide (r = content) then set_body content (stored b) else r).

(** The two outcomes of [create_content_if_changed]. *)
Lemma create_content_if_changed_cases now page lang ctype b tb :
  (∃ c, latest (filter_tuple page lang ctype (rows tb)) = Ok c
        ∧ body c = stored b
        ∧ create_content_if_changed now page lang ctype b tb = (Ok c, tb))
  ∨ ((∀ c, latest (filter_tuple page lang ctype (rows tb)) = Ok c →
           body c ≠ stored b)
     ∧ create_content_if_changed now page lang ctype b tb
       = (Ok (inserted now page lang ctype b tb),
          {| rows :=
               if decide (depth = 0%nat)
               then rows tb ++ [inserted now page lang ctype b tb]
               else filter
                      (λ r, id r ∉ map id
                         (drop depth
                            (order_by_creation_date_desc
                               (filter_tuple page lang ctype
                                  (rows tb
                                   ++ [inserted now page lang ctype b tb])))))
                      (rows tb ++ [inserted now page lang ctype b tb]);
             next_id := next_id tb + 1 |})).
Proof.
  destruct (latest (filter_tuple page lang ctype (rows tb))) as [c|e] eqn:Hl.
  - destruct (decide (body c = stored b)) as [Heq|Hne].
    + left. exists c. split; [done|]. split; [done|].
      by apply create_content_if_changed_unchanged.
    + right. assert (Hdiff : ∀ c0, latest (filter_tuple page lang ctype
                                             (rows tb)) = Ok c0 →
                                   body c0 ≠ stored b).
      { intros c0. rewrite Hl. by intros [= <-]. }
      split; [by rewrite <- Hl|].
      by apply create_content_if_changed_changed.
  - right. assert (Hdiff : ∀ c0, latest (filter_tuple page lang ctype
                                           (rows tb)) = Ok c0 →
                                 body c0 ≠ stored b).
    { intros c0. by rewrite Hl. }
    split; [by rewrite <- Hl|].
    by apply create_content_if_changed_changed.
Qed.

(** The two outcomes of [set_or_create_content] on a table that respects
    its primary key. *)
Lemma set_or_create_content_cases now page lang ctype b tb :
  table_ok tb →
  (∃ content, latest (filter_tuple page lang ctype (rows tb)) = Ok content
        ∧ content ∈ rows tb
        ∧ set_or_create_content now page lang ctype b tb
          = (Ok (set_body content (stored b)),
             {| rows := overwrite content b <$> rows tb;
                next_id := next_id tb |}))
  ∨ (filter_tuple page lang ctype (rows tb) = []
     ∧ set_or_create_content now page lang ctype b tb
       = (Ok (inserted now page lang ctype b tb),
          {| rows := rows tb ++ [inserted now page lang ctype b tb];
             next_id := next_id tb + 1 |})).
Proof.
  intros [Hnd Hkeys].
  destruct (latest (filter_tuple page lang ctype (rows tb)))
    as [content|e] eqn:Hl.
  - left. exists content. split; [done|].
    pose proof (latest_Ok _ _ Hl) as [Hin _].
    apply list_elem_of_filter in Hin as [_ Hin]. split; [done|].
    rewrite Forall_forall in Hkeys.
    destruct (Hkeys content Hin) as (i & Hi & _).
    unfold ContentManager.set_or_create_content.
    unfold bind, try_except, query, ret. rewrite Hl. simpl.
    unfold ContentManager.save_m, save. simpl. rewrite Hi.
    rewrite bool_decide_eq_true_2
      by (rewrite <- Hi; apply list_elem_of_fmap; eauto).
    f_equal. f_equal. apply Forall_fmap_ext, Forall_forall.
    intros r Hr. rewrite <- Hi.
    destruct (decide (r = content)) as [->|Hne].
    + by rewrite bool_decide_eq_true_2.
    + rewrite bool_decide_eq_false_2; [done|].
      intros Hid. apply Hne.
      by apply (NoDup_fmap_elem_inj id (rows tb)).
  - right. apply latest_Raise in Hl as Hnil. destruct Hnil as [-> Hnil].
    split; [done|].
    unfold ContentManager.set_or_create_content.
    unfold bind, try_except, query, ret. rewrite Hl. simpl. reflexivity.
Qed.

Lemma overwrite_id content b r : id (overwrite content b r) = id r.
Proof. simpl. by destruct (decide (r = content)) as [->|]. Qed.

Lemma table_ok_overwrite content b tb :
  table_ok tb →
  table_ok {| rows := overwrite content b <$> rows tb;
              next_id := next_id tb |}.
Proof.
  intros [Hnd Hkeys]. split; simpl.
  - replace (map id (overwrite content b <$> rows tb)) with (map id (rows tb));
      [done|].
    change (id <$> rows tb = id <$> (overwrite content b <$> rows tb)).
    rewrite <- list_fmap_compose. apply list_fmap_ext.
    intros _ r _. simpl. by destruct (decide (r = content)) as [->|].
  - apply Forall_fmap. eapply Forall_impl; [exact Hkeys|].
    intros r (i & Hi & Hlt). exists i. split; [|done].
    simpl. by destruct (decide (r = content)) as [->|].
Qed.

(** X11: the two writers keep the primary key of the content table: after
    [create_content_if_changed] and after [set_or_create_content] every row
    has a key below the next key and no two rows share one. *)
Theorem writers_keep_table_ok now page lang ctype b tb :
  table_ok tb →
  table_ok (create_content_if_changed now page lang ctype b tb).2
  ∧ table_ok (set_or_create_content now page lang ctype b tb).2.
Proof.
  intros Hok. split.
  - destruct (create_content_if_changed_cases now page lang ctype b tb)
      as [(c & _ & _ & ->)|[_ ->]]; [done|]. simpl.
    pose proof (table_ok_insert tb (model now page lang (stored b) ctype) Hok)
      as Hok1.
    destruct (decide (depth = 0%nat)); [done|].
    by apply (table_ok_filter _ _ Hok1).
  - destruct (set_or_create_content_cases now page lang ctype b tb Hok)
      as [(c & _ & _ & ->)|[_ ->]]; simpl.
    + by apply table_ok_overwrite.
    + by apply (table_ok_insert tb (model now page lang (stored b) ctype)).
Qed.

Lemma filter_ext_elem {A} (P Q : A → Prop) `{!∀ x, Decision (P x)}
    `{!∀ x, Decision (Q x)} (l : list A) :
  (∀ x, x ∈ l → (P x ↔ Q x)) → filter P l = filter Q l.
Proof.
  induction l as [|x l IH]; intros Hext; [done|].
  rewrite !filter_cons, IH by (intros y Hy; apply Hext; by right).
  destruct (decide (P x)) as [HP|HP], (decide (Q x)) as [HQ|HQ]; try done.
  - destruct HQ. apply Hext; [left|done].
  - destruct HP. apply Hext; [left|done].
Qed.

Lemma filter_fmap_fixed {A} (P : A → Prop) `{!∀ x, Decision (P x)}
    (f : A → A) (l : list A) :
  (∀ x, x ∈ l → (P x → f x = x) ∧ (¬ P x → ¬ P (f x))) →
  filter P (f <$> l) = filter P l.
Proof.
  induction l as [|x l IH]; intros Hf; [done|].
  rewrite fmap_cons, !filter_cons, IH by (intros y Hy; apply Hf; by right).
  destruct (Hf x) as [Hfix Hout]; [left|].
  destruct (decide (P x)) as [HP|HP].
  - rewrite (Hfix HP). by rewrite decide_True.
  - by rewrite decide_False by (by apply Hout).
Qed.

(** X12: the two writers touch the rows of their tuple only: the rows of
    every other page, language or type are after the call what they were
    before it, in the same order. *)
Theorem writers_leave_other_tuples now page lang ctype b tb :
  table_ok tb →
  filter (λ r, ¬ in_tuple page lang ctype r)
    (rows (create_content_if_changed now page lang ctype b tb).2)
  = filter (λ r, ¬ in_tuple page lang ctype r) (rows tb)
  ∧ filter (λ r, ¬ in_tuple page lang ctype r)
      (rows (set_or_create_content now page lang ctype b tb).2)
    = filter (λ r, ¬ in_tuple page lang ctype r) (rows tb).
Proof.
  intros Hok.
  assert (Hnew : filter (λ r, ¬ in_tuple page lang ctype r)
                   (rows tb ++ [inserted now page lang ctype b tb])
                 = filter (λ r, ¬ in_tuple page lang ctype r) (rows tb)).
  { rewrite filter_app, filter_cons_False, filter_nil, app_nil_r; [done|].
    intros Hnot. by apply Hnot. }
  split.
  - destruct (create_content_if_changed_cases now page lang ctype b tb)
      as [(c & _ & _ & ->)|[_ ->]]; [done|]. simpl.
    destruct (decide (depth = 0%nat)); [done|].
    rewrite <- Hnew, list_filter_filter.
    apply filter_ext_elem. intros r Hr. split; [tauto|].
    intros Hnot. split; [done|]. intros Hid.
    apply list_elem_of_fmap in Hid as (r' & Hid & Hr').
    apply subseteq_drop in Hr'.
    apply (proj1 (elem_of_order_by _ _)) in Hr'.
    apply list_elem_of_filter in Hr' as [Htuple Hr'].
    pose proof (table_ok_insert tb (model now page lang (stored b) ctype) Hok)
      as [Hnd _]. simpl in Hnd.
    assert (r = r') as -> by (by eapply (NoDup_fmap_elem_inj id)).
    by apply Hnot.
  - destruct (set_or_create_content_cases now page lang ctype b tb Hok)
      as [(c & Hl & Hc & ->)|[_ ->]]; simpl; [|done].
    apply latest_Ok in Hl as [Htuple _].
    apply list_elem_of_filter in Htuple as [Htuple _].
    destruct Hok as [Hnd _].
    apply filter_fmap_fixed. intros r Hr. split.
    + intros Hnot. rewrite decide_False; [done|].
      intros ->. by apply Hnot.
    + intros Hin. destruct (decide (r = c)); [|done].
      intros Hnot. by apply Hnot.
Qed.

Lemma insert_desc_fmap (f : t → t) c l :
  (∀ r, creation_date (f r) = creation_date r) →
  insert_desc (f c) (f <$> l) = f <$> insert_desc c l.
Proof.
  intros Hf. induction l as [|x l IH]; [done|].
  rewrite fmap_cons. simpl. rewrite !Hf.
  case_bool_decide; [|done]. by rewrite IH.
Qed.

Lemma order_by_fmap (f : t → t) l :
  (∀ r, creation_date (f r) = creation_date r) →
  order_by_creation_date_desc (f <$> l)
  = f <$> order_by_creation_date_desc l.
Proof.
  intros Hf. induction l as [|x l IH]; [done|].
  rewrite fmap_cons. simpl. by rewrite IH, insert_desc_fmap.
Qed.

Lemma get_content_object_unfrozen contents page lang ctype :
  Page.freeze_date page = None →
  get_content_object contents page lang ctype
  = latest (filter_tuple page lang ctype contents).
Proof. intros H. unfold ContentManager.get_content_object. by rewrite H. Qed.

(** After [set_or_create_content] the latest revision of the tuple is the
    record that the call returns, with the stored body. *)
Lemma set_or_create_content_latest now page lang ctype b tb :
  table_ok tb →
  let out := set_or_create_content now page lang ctype b tb in
  latest (filter_tuple page lang ctype (rows out.2)) = out.1
  ∧ ∃ c, out.1 = Ok c ∧ body c = stored b.
Proof.
  intros Hok out. unfold out.
  destruct (set_or_create_content_cases now page lang ctype b tb Hok)
    as [(c & Hl & Hc & ->)|[Hnil ->]]; simpl.
  - split; [|by eexists].
    rewrite filter_tuple_fmap
      by (intros r; by destruct (decide (r = c)) as [->|]).
    rewrite latest_head, order_by_fmap
      by (intros r; by destruct (decide (r = c)) as [->|]).
    rewrite latest_head in Hl.
    destruct (order_by_creation_date_desc
                (filter_tuple page lang ctype (rows tb))) as [|c0 l0];
      [done|].
    injection Hl as ->. simpl. by rewrite decide_True.
  - split; [|by eexists].
    rewrite (filter_tuple_new_row settings sanitize), Hnil. done.
Qed.

(** X13: what [set_or_create_content] writes is what
    [get_content_object] reads next, for a page that is not frozen: the
    record that the call returns, with the stored body. *)
Theorem set_or_create_content_then_get now page lang ctype b tb :
  table_ok tb →
  Page.freeze_date page = None →
  let out := set_or_create_content now page lang ctype b tb in
  get_content_object (rows out.2) page lang ctype = out.1
  ∧ ∃ c, out.1 = Ok c ∧ body c = stored b.
Proof.
  intros Hok Hfreeze out. unfold out.
  rewrite get_content_object_unfrozen by done.
  by apply set_or_create_content_latest.
Qed.

Lemma set_body_same c : set_body c (body c) = c.
Proof. by destruct c. Qed.

(** X17: [set_or_create_content] is idempotent: a second call with the
    same body returns what the first returned and leaves the table as the
    first left it. *)
Theorem set_or_create_content_idempotent now1 now2 page lang ctype b tb :
  table_ok tb →
  let out := set_or_create_content now1 page lang ctype b tb in
  set_or_create_content now2 page lang ctype b out.2 = out.
Proof.
  intros Hok out.
  destruct (set_or_create_content_latest now1 page lang ctype b tb Hok)
    as (Hlatest & c & Hc & Hbody).
  fold out in Hlatest, Hc.
  assert (Hok' : table_ok out.2).
  { unfold out.
    destruct (set_or_create_content_cases now1 page lang ctype b tb Hok)
      as [(c0 & _ & _ & ->)|[_ ->]]; simpl.
    - by apply table_ok_overwrite.
    - by apply (table_ok_insert tb (model now1 page lang (stored b) ctype)). }
  destruct (set_or_create_content_cases now2 page lang ctype b out.2 Hok')
    as [(c' & Hl' & _ & ->)|[Hnil _]].
  - rewrite Hlatest, Hc in Hl'. injection Hl' as <-.
    rewrite <- Hbody, set_body_same.
    destruct out as [r [rs n]]. simpl in *. subst r. rewrite Hc.
    f_equal. f_equal.
    trans ((λ r, r) <$> rs); [|apply list_fmap_id]. apply list_fmap_ext.
    intros _ r _. by destruct (decide (r = c)) as [->|].
  - rewrite latest_head, Hnil, Hc in Hlatest. done.
Qed.

(** X14: what [create_content_if_changed] returns is what
    [get_content_object] reads next, for a page that is not frozen, when
    the clock reading of the call is after the creation of every revision
    of the tuple. *)
Theorem create_content_if_changed_then_get now page lang ctype b tb :
  table_ok tb →
  Forall (λ c, creation_date c < now) (filter_tuple page lang ctype (rows tb)) →
  Page.freeze_date page = None →
  let out := create_content_if_changed now page lang ctype b tb in
  get_content_object (rows out.2) page lang ctype = out.1
  ∧ ∃ c, out.1 = Ok c ∧ body c = stored b.
Proof.
  intros Hok Hnow Hfreeze out. unfold out.
  rewrite get_content_object_unfrozen by done.
  destruct (create_content_if_changed_cases now page lang ctype b tb)
    as [(c & Hl & Hb & Hrun)|[Hdiff Hrun]].
  - rewrite Hrun. simpl. split; [done|]. by exists c.
  - destruct (create_changed_newest settings sanitize now page lang ctype b tb
                Hok Hnow Hdiff) as (Hres & _ & Hrev & _).
    rewrite Hres. split; [|by eexists].
    rewrite latest_head, Hrev.
    destruct (decide (depth = 0%nat)); [done|]. by destruct depth.
Qed.

(** X15: with no revision depth (the setting is 0), no call deletes a row:
    the table before a call is a prefix of the table after it, which has at
    most one row more. *)
Theorem create_content_if_changed_unlimited now page lang ctype b tb :
  depth = 0%nat →
  rows tb `prefix_of` rows (create_content_if_changed now page lang ctype b tb).2
  ∧ (length (rows (create_content_if_changed now page lang ctype b tb).2)
     ≤ S (length (rows tb)))%nat.
Proof.
  intros Hdepth.
  destruct (create_content_if_changed_cases now page lang ctype b tb)
    as [(c & _ & _ & ->)|[_ ->]]; simpl.
  - split; [done|lia].
  - rewrite decide_True by done. split; [by apply prefix_app_r|].
    rewrite length_app. simpl. lia.
Qed.

(** X16: with no revision depth, a call whose clock reading is after the
    freeze date of a page does not change what [get_content_object] reads
    for that page, in any language and type. *)
Theorem create_content_if_changed_frozen_view now page lang ctype b tb
    frozen_page T lang' ctype' :
  depth = 0%nat →
  Page.freeze_date frozen_page = Some T →
  T < now →
  get_content_object
    (rows (create_content_if_changed now page lang ctype b tb).2)
    frozen_page lang' ctype'
  = get_content_object (rows tb) frozen_page lang' ctype'.
Proof.
  intros Hdepth Hfreeze Hlater.
  destruct (create_content_if_changed_cases now page lang ctype b tb)
    as [(c & _ & _ & ->)|[_ ->]]; simpl; [done|].
  rewrite decide_True by done.
  unfold ContentManager.get_content_object. rewrite Hfreeze.
  unfold ContentManager.filter_tuple. rewrite !filter_app.
  replace (filter (λ c, creation_date c ≤ T)
             (filter (λ c, in_tuple frozen_page lang' ctype' c)
                [inserted now page lang ctype b tb])) with (@nil t).
  - by rewrite app_nil_r.
  - rewrite filter_cons. destruct (decide _); [|done].
    rewrite filter_cons_False; [done|]. simpl. lia.
Qed.

End content_writes.

(** ** Reading content: slugs and the content dictionary *)

Section content_reads.
Import Content ContentQuery.

Variable settings : Settings.
Variable filter_link : string → Page.t → string → string → string.

Local Abbreviation get_content_slug_by_slug :=
  (ContentManager.get_content_slug_by_slug settings).
Local Abbreviation load_content_dict :=
  (ContentManager.load_content_dict settings).
Local Abbreviation get_content :=
  (ContentManager.get_content settings filter_link).
Local Abbreviation languages := (GERBI_LANGUAGES settings).
Local Abbreviation key_of page ctype :=
  (ContentManager.GERBI_CONTENT_DICT_KEY (Page.id page) ctype
     (match Page.freeze_date page with Some _ => 1 | None => 0 end)).

(** X18: [get_content_slug_by_slug] does not raise.  Among the rows of type
    slug whose body is the slug and, when sites are used, whose page is on
    the site, it returns one of latest creation date, whose page is one of
    the pages that [get_page_ids_by_slug] lists; it returns [None] exactly
    when there is no such row. *)
Theorem get_content_slug_by_slug_spec pages contents slug :
  let matching c :=
    c ∈ contents ∧ type c = "slug" ∧ body c = slug
    ∧ (GERBI_USE_SITE_ID settings = true →
       ∃ p, p ∈ pages ∧ Page.id p = page_id c
            ∧ SITE_ID settings ∈ Page.sites p) in
  (∀ c, matching c →
     ∃ r, get_content_slug_by_slug pages contents slug = Ok (Some r)
          ∧ matching r
          ∧ (∀ c', matching c' → creation_date c' ≤ creation_date r)
          ∧ page_id r ∈ ContentManager.get_page_ids_by_slug contents slug)
  ∧ (get_content_slug_by_slug pages contents slug = Ok None
     ↔ ∀ c, ¬ matching c).
Proof.
  intros matching. unfold ContentManager.get_content_slug_by_slug.
  set (qs := if GERBI_USE_SITE_ID settings
             then ContentManager.filter_page_site settings pages
                    (filter (λ c, type c = "slug" ∧ body c = slug) contents)
             else filter (λ c, type c = "slug" ∧ body c = slug) contents).
  assert (Hqs : ∀ c, c ∈ qs ↔ matching c).
  { intros c. unfold qs, matching, ContentManager.filter_page_site.
    destruct (GERBI_USE_SITE_ID settings).
    - rewrite !list_elem_of_filter, Exists_exists. split.
      + intros (Hp & (? & ?) & ?). auto.
      + intros (? & ? & ? & Hp). auto.
    - rewrite list_elem_of_filter. split.
      + intros ((? & ?) & ?). repeat split; done.
      + intros (? & ? & ? & _). auto. }
  destruct (latest qs) as [r|e] eqn:Hl.
  - apply latest_Ok in Hl as [Hr Hmax]. split.
    + intros c Hc. exists r. split; [done|].
      split; [by apply Hqs|]. split.
      * intros c' Hc'. apply Hmax. by apply Hqs.
      * apply Hqs in Hr as (Hin & Hty & Hb & _).
        unfold ContentManager.get_page_ids_by_slug.
        apply elem_of_remove_dups, list_elem_of_fmap. exists r.
        split; [done|]. apply list_elem_of_filter. auto.
    + split; [intros ?; discriminate|].
      intros Hnone. destruct (Hnone r). by apply Hqs.
  - apply latest_Raise in Hl as [-> Hnil]. split.
    + intros c Hc. apply Hqs in Hc. rewrite Hnil in Hc.
      by apply not_elem_of_nil in Hc.
    + split; [|done]. intros _ c Hc. apply Hqs in Hc. rewrite Hnil in Hc.
      by apply not_elem_of_nil in Hc.
Qed.

Lemma truthy_dict_Some (d : option (gmap string string)) :
  ContentManager.truthy_dict d = true → ∃ d', d = Some d' ∧ d' ≠ ∅.
Proof.
  destruct d as [d'|]; simpl; [|done].
  intros H%bool_decide_eq_true. eauto.
Qed.

(** A second load, on the page object and the cache that the first left,
    gives the same dictionary and changes nothing, whatever the content
    table has become. *)
Lemma load_content_dict_again contents contents2 page ctype
    (cache cache' : gmap string (gmap string string))
    (content_dict : gmap string string) page' :
  load_content_dict contents page ctype cache
    = (Ok (content_dict, page'), cache') →
  load_content_dict contents2 page' ctype cache'
    = (Ok (content_dict, page'), cache').
Proof.
  unfold ContentManager.load_content_dict.
  set (memo := default ∅ (Page._content_dict page)).
  unfold bind, ret, gets, query, modify.
  destruct (ContentManager.truthy_dict (memo !! key_of page ctype)) eqn:Hmemo.
  - rewrite Hmemo. simpl. intros [= <- <- <-]. simpl. fold memo.
    rewrite Hmemo. simpl. by rewrite Hmemo.
  - destruct (ContentManager.truthy_dict (cache !! key_of page ctype))
      eqn:Hcache; simpl.
    + intros [= <- <- <-]. simpl. fold memo.
      rewrite Hmemo. simpl. by rewrite Hcache.
    + destruct (fill_content_dict_Ok contents page ctype languages ∅)
        as (fresh & Hfill & Hlook).
      rewrite Hfill. intros [= <- <- <-]. simpl.
      rewrite !lookup_insert_eq.
      destruct languages as [|[l0 name] langs] eqn:Hlangs.
      * simpl in Hfill. injection Hfill as <-. simpl.
        rewrite bool_decide_eq_false_2 by (intros H; by apply H). simpl.
        rewrite lookup_insert_eq. simpl.
        rewrite bool_decide_eq_false_2 by (intros H; by apply H). simpl.
        by rewrite !insert_insert_eq.
      * assert (Hne : fresh ≠ ∅).
        { intros ->. specialize (Hlook l0). rewrite lookup_empty in Hlook.
          rewrite decide_True in Hlook by (simpl; left). done. }
        simpl. rewrite bool_decide_eq_true_2 by done. simpl.
        by rewrite bool_decide_eq_true_2 by done.
Qed.

(** X19: a second [get_content], on the page object and the cache that the
    first left, returns the same string and changes nothing, whatever the
    content table has become: bodies written after the first call are not
    read. *)
Theorem get_content_again contents contents2 page language ctype
    language_fallback (cache : gmap string (gmap string string)) :
  let out := get_content contents page language ctype language_fallback
               cache in
  ∃ s page',
    out.1 = Ok (s, page')
    ∧ get_content contents2 page' language ctype language_fallback out.2
      = (Ok (s, page'), out.2).
Proof.
  intros out.
  destruct (load_content_dict_Ok settings contents page ctype cache)
    as (content_dict & page' & cache' & Hload & _).
  pose proof (load_content_dict_again contents contents2 page ctype cache
                cache' content_dict page' Hload) as Hagain.
  unfold out, ContentManager.get_content, bind.
  rewrite Hload. simpl.
  set (lang := if Py.truthy language then language
               else GERBI_DEFAULT_LANGUAGE settings).
  destruct (content_dict !! lang) as [b|] eqn:Hb.
  - destruct (Py.truthy b) eqn:Htruthy; simpl.
    + eexists _, _. split; [done|]. rewrite Hagain. simpl. fold lang.
      by rewrite Hb, Htruthy.
    + eexists _, _. split; [done|]. rewrite Hagain. simpl. fold lang.
      by rewrite Hb, Htruthy.
  - simpl. eexists _, _. split; [done|]. rewrite Hagain. simpl. fold lang.
    by rewrite Hb.
Qed.

(** [s] has no underscore. *)
Local Abbreviation no_underscore s :=
  (∀ a b : string, s ≠ a +:+ String "_" b).

Lemma no_underscore_String c s :
  c ≠ "_"%char → no_underscore s → no_underscore (String c s).
Proof.
  intros Hc Hs [|c' a] b; simpl.
  - intros [= Heq _]. by apply Hc.
  - intros [= <- Hs']. by apply (Hs a b).
Qed.

Lemma no_underscore_pretty_N_go x s :
  no_underscore s → no_underscore (pretty_N_go x s).
Proof.
  revert s. induction (N.lt_wf_0 x) as [x _ IH]; intros s Hs.
  assert (x = 0 ∨ 0 < x)%N as [->|Hpos] by lia.
  - by rewrite pretty_N_go_0.
  - rewrite pretty_N_go_step by done. apply IH; [by apply N.div_lt|].
    apply no_underscore_String; [|done].
    unfold pretty_N_char. by repeat case_match.
Qed.

Lemma no_underscore_empty : no_underscore "".
Proof. by intros [|] ?. Qed.

Lemma no_underscore_pretty_Z (x : Z) : no_underscore (pretty x).
Proof.
  assert (Hpos : ∀ p : positive, no_underscore (pretty p)).
  { intros p. unfold pretty, pretty_positive, pretty, pretty_N.
    rewrite decide_False by done.
    apply no_underscore_pretty_N_go, no_underscore_empty. }
  destruct x as [|p|p].
  - apply no_underscore_String; [done|]. apply no_underscore_empty.
  - apply Hpos.
  - apply (no_underscore_String "-"); [done|]. apply Hpos.
Qed.

(** Strings without underscore that are followed by an underscore in equal
    strings are equal, and so is what follows. *)
Lemma split_at_underscore s1 : ∀ s2 r1 r2,
  no_underscore s1 → no_underscore s2 →
  s1 +:+ String "_" r1 = s2 +:+ String "_" r2 →
  s1 = s2 ∧ r1 = r2.
Proof.
  induction s1 as [|c s1 IH]; intros [|c' s2] r1 r2 H1 H2; simpl.
  - by intros [= ->].
  - intros [= <- _]. by destruct (H2 "" s2).
  - intros [= -> _]. by destruct (H1 "" s1).
  - intros [= <- Heq].
    destruct (IH s2 r1 r2) as [-> ->]; [| |done|done].
    + intros a b ->. by apply (H1 (String c a) b).
    + intros a b ->. by apply (H2 (String c a) b).
Qed.

Lemma two_last_chars s1 : ∀ s2 (a b c d : ascii),
  s1 +:+ String a (String b "") = s2 +:+ String c (String d "") →
  s1 = s2 ∧ a = c ∧ b = d.
Proof.
  induction s1 as [|x s1 IH]; intros [|y s2] a b c d; simpl.
  - by intros [= -> ->].
  - intros [= _ H]. destruct s2 as [|? [|? ?]]; discriminate.
  - intros [= _ H]. destruct s1 as [|? [|? ?]]; discriminate.
  - intros [= <- H]. by destruct (IH s2 a b c d H) as (-> & -> & ->).
Qed.

(** X20: the key of the content dictionary tells pages, types and the
    frozen state apart: two keys are equal only for pages of equal id, equal
    types, and when both pages are frozen or neither is. *)
Theorem content_dict_key_inj page1 ctype1 page2 ctype2 :
  ContentManager.GERBI_CONTENT_DICT_KEY (Page.id page1) ctype1
    (match Page.freeze_date page1 with Some _ => 1 | None => 0 end)
  = ContentManager.GERBI_CONTENT_DICT_KEY (Page.id page2) ctype2
      (match Page.freeze_date page2 with Some _ => 1 | None => 0 end) →
  Page.id page1 = Page.id page2
  ∧ ctype1 = ctype2
  ∧ (Page.freeze_date page1 = None ↔ Page.freeze_date page2 = None).
Proof.
  unfold ContentManager.GERBI_CONTENT_DICT_KEY. intros H.
  apply (inj (String.app "page_content_dict_")) in H.
  apply split_at_underscore in H as [Hid H];
    [|apply no_underscore_pretty_Z|apply no_underscore_pretty_Z].
  apply (inj pretty) in Hid. split; [done|].
  destruct (Page.freeze_date page1), (Page.freeze_date page2);
    apply two_last_chars in H as (-> & _ & H); try done.
Qed.

(** X23: on a miss of the memo and of the cache, [get_content] without
    fallback reads through to the table: for a configured language it
    returns the link filter applied to the body that [get_content_object]
    yields, and the empty string when that raises or yields an empty
    body. *)
Theorem get_content_reads_through contents page language name ctype
    (cache : gmap string (gmap string string)) :
  ContentManager.truthy_dict
    (default ∅ (Page._content_dict page) !! key_of page ctype) = false →
  ContentManager.truthy_dict (cache !! key_of page ctype) = false →
  language ≠ "" →
  (language, name) ∈ languages →
  ∃ page',
    (get_content contents page language ctype false cache).1
    = Ok (match ContentManager.get_content_object contents page language
                  ctype with
          | Ok c => if decide (body c = "") then ""
                    else filter_link (body c) page' language ctype
          | Raise _ => ""
          end, page').
Proof.
  intros Hmemo Hcache Hlanguage Hconfigured.
  destruct (load_content_dict_Ok settings contents page ctype cache)
    as (content_dict & page' & cache' & Hload & _ & _ & Hfresh).
  destruct (Hfresh Hmemo Hcache) as (Hlook & _ & _).
  exists page'. unfold ContentManager.get_content, bind.
  rewrite Hload. simpl. unfold Py.truthy at 1.
  rewrite bool_decide_eq_true_2 by done.
  rewrite Hlook, decide_True
    by (apply list_elem_of_fmap; by exists (language, name)).
  unfold ContentManager.fallback, Py.truthy.
  destruct (ContentManager.get_content_object contents page language ctype)
    as [c|e]; simpl.
  - destruct (decide (body c = "")) as [Hempty|Hfull].
    + by rewrite bool_decide_eq_false_2 by (intros H; by apply H).
    + by rewrite !bool_decide_eq_true_2 by done.
  - done.
Qed.

End content_reads.

(** ** [PageAliasManager.from_path]: what it returns and when it raises *)

Section alias_further.

Variable normalize_url : string → string.

Local Abbreviation get := PageAliasManager.get.
Local Abbreviation alias_from_path := (PageAliasManager.from_path normalize_url).

Lemma get_Ok aliases url a :
  get aliases url = Ok a → a ∈ aliases ∧ PageAlias.url a = url.
Proof.
  unfold PageAliasManager.get. intros H.
  assert (Hin : a ∈ filter (λ b, PageAlias.url b = url) aliases).
  { destruct (filter _ aliases) as [|b [|? ?]]; try done.
    injection H as ->. left. }
  apply list_elem_of_filter in Hin. tauto.
Qed.

Lemma get_Raise aliases url e :
  get aliases url = Raise e →
  e = DoesNotExist
  ∨ (e = MultipleObjectsReturned ∧ ¬ NoDup (map PageAlias.url aliases)).
Proof.
  intros H. pose proof H as H'. unfold PageAliasManager.get in H'.
  destruct (filter (λ b, PageAlias.url b = url) aliases)
    as [|a [|b rest]] eqn:Hf; try done.
  - left. by injection H' as <-.
  - right. injection H' as <-. split; [done|]. intros Hnd.
    assert (Ha : a ∈ filter (λ b, PageAlias.url b = url) aliases)
      by (rewrite Hf; left).
    apply list_elem_of_filter in Ha as [Hurl Ha].
    pose proof (get_present aliases a Hnd Ha) as Hget.
    rewrite Hurl, H in Hget. discriminate.
Qed.

(** X21: an alias that [from_path] returns is a row of the alias table
    whose url is the normalized path, or the normalized path followed by [?]
    and the query string of the request, which is then not empty. *)
Theorem alias_from_path_result_sound aliases request path lang a :
  alias_from_path aliases request path lang = Ok (Some a) →
  a ∈ aliases
  ∧ (PageAlias.url a = normalize_url path
     ∨ ∃ q, META request !! "QUERY_STRING" = Some q ∧ q ≠ ""
            ∧ PageAlias.url a = normalize_url path +:+ "?" +:+ q).
Proof.
  unfold PageAliasManager.from_path.
  set (url := match META request !! "QUERY_STRING" with
              | Some q => if Py.truthy q then normalize_url path +:+ "?" +:+ q
                          else normalize_url path
              | None => normalize_url path
              end).
  assert (Hurl : url = normalize_url path
                 ∨ ∃ q, META request !! "QUERY_STRING" = Some q ∧ q ≠ ""
                        ∧ url = normalize_url path +:+ "?" +:+ q).
  { unfold url. destruct (META request !! "QUERY_STRING") as [q|]; [|by left].
    unfold Py.truthy. case_bool_decide; [|by left]. right. by exists q. }
  destruct (get aliases url) as [a1|e1] eqn:H1.
  - intros [= <-]. apply get_Ok in H1 as [Hin Heq]. split; [done|].
    rewrite Heq. exact Hurl.
  - destruct e1; try done.
    destruct (get aliases (normalize_url path)) as [a2|e2] eqn:H2.
    + intros [= <-]. apply get_Ok in H2 as [Hin Heq]. split; [done|].
      by left.
    + by destruct e2.
Qed.

(** X22: [from_path] catches [DoesNotExist] only: when it raises, it raises
    [MultipleObjectsReturned], and two rows of the alias table have the
    same url. *)
Theorem alias_from_path_raises aliases request path lang e :
  alias_from_path aliases request path lang = Raise e →
  e = MultipleObjectsReturned ∧ ¬ NoDup (map PageAlias.url aliases).
Proof.
  unfold PageAliasManager.from_path.
  destruct (get aliases _) as [a1|e1] eqn:H1; [done|].
  apply get_Raise in H1 as [->|[-> Hdup]].
  - destruct (get aliases (normalize_url path)) as [a2|e2] eqn:H2; [done|].
    apply get_Raise in H2 as [->|[-> Hdup]]; [done|].
    by intros [= <-].
  - by intros [= <-].
Qed.

End alias_further.

(** * The further properties on the sample site *)

Section sample_site_further.
Import Sample.

Local Abbreviation sample_from_path :=
  (PageManager.from_path settings get_slug get_complete_slug pages
     (Content.rows contents)).

(** [/home/about/] resolves to [about], a page of the table that is not a
    draft. *)
Lemma from_path_result_sound_witness :
  sample_from_path "/home/about/" "en" true = Ok (Some about)
  ∧ about ∈ pages
  ∧ Page.status about ≠ Page.DRAFT.
Proof.
  assert (H : sample_from_path "/home/about/" "en" true = Ok (Some about))
    by (vm_compute; reflexivity).
  destruct (from_path_result_sound settings get_slug get_complete_slug pages
              (Content.rows contents) "/home/about/" "en" true about H)
    as (Hin & _ & _ & Hpath).
  split; [exact H|]. split; [exact Hin|].
  destruct Hpath as [Hdraft _]; [vm_compute; discriminate|].
  by apply Hdraft.
Defined.

(** The complete slug of the page that [/home/news/team/] resolves to. *)
Lemma from_path_strict_complete_slug_witness :
  GERBI_USE_STRICT_URL settings = true
  ∧ sample_from_path "/home/news/team/" "en" true = Ok (Some news_team)
  ∧ get_complete_slug news_team "en" = "home/news/team".
Proof.
  assert (H : sample_from_path "/home/news/team/" "en" true
              = Ok (Some news_team)) by (vm_compute; reflexivity).
  split; [reflexivity|]. split; [exact H|].
  apply (from_path_strict_complete_slug settings get_slug get_complete_slug
           pages (Content.rows contents) "/home/news/team/" "en" true
           news_team eq_refl); [vm_compute; discriminate|exact H].
Defined.

(** [home/about] with and without its outer slashes. *)
Lemma from_path_optional_slashes_witness :
  sample_from_path "/home/about" "en" true
    = sample_from_path "home/about" "en" true
  ∧ sample_from_path "home/about/" "en" true
    = sample_from_path "home/about" "en" true
  ∧ sample_from_path "/home/about/" "en" true
    = sample_from_path "home/about" "en" true.
Proof.
  apply (from_path_optional_slashes settings get_slug get_complete_slug pages
           (Content.rows contents) "home/about" "en" true);
    vm_compute; reflexivity.
Defined.

Local Abbreviation sample_published :=
  (PageManager.published settings publication_date publication_end_date
     true true).

Example published_sample :
  sample_published 100 100 all_pages
  = [home; about; about_team; news_team; ended_page]
  ∧ sample_published 200 200 all_pages = [home; about; about_team; news_team]
  ∧ PageManager.expired settings publication_end_date 200 all_pages
    = [ended_page]
  ∧ PageManager.drafts settings publication_date true 100 all_pages
    = [draft_page]
  ∧ PageManager.navigation settings all_pages = [home; ended_page]
  ∧ PageManager.hidden settings all_pages = [hidden_page].
Proof. repeat split; vm_compute; reflexivity. Qed.

(** [ended_page] is published at 100 and not expired then. *)
Lemma published_not_expired_witness :
  ended_page ∈ sample_published 100 100 all_pages
  ∧ ended_page ∉ PageManager.expired settings publication_end_date 100
                   all_pages.
Proof.
  assert (H : ended_page ∈ sample_published 100 100 all_pages).
  { vm_compute. do 4 right. left. }
  split; [exact H|].
  apply (published_not_expired settings publication_date publication_end_date
           true true 100 100 100 all_pages ended_page eq_refl); [lia|exact H].
Defined.

Local Abbreviation sample_create :=
  (ContentManager.create_content_if_changed settings sanitize).
Local Abbreviation sample_set :=
  (ContentManager.set_or_create_content settings sanitize).

Lemma writers_keep_table_ok_witness :
  Content.table_ok contents
  ∧ Content.table_ok (sample_create 200 home "en" "body" "fourth" contents).2
  ∧ Content.table_ok (sample_set 200 home "en" "body" "edited" contents).2.
Proof.
  split; [exact contents_ok|].
  destruct (writers_keep_table_ok settings sanitize 200 home "en" "body"
              "fourth" contents contents_ok) as [Hcreate _].
  destruct (writers_keep_table_ok settings sanitize 200 home "en" "body"
              "edited" contents contents_ok) as [_ Hset].
  split; [exact Hcreate|exact Hset].
Defined.

(** A fourth body of [home] at depth 2 deletes two rows of [home] and
    leaves the seven other rows. *)
Lemma writers_leave_other_tuples_witness :
  Content.table_ok contents
  ∧ length (Content.rows
              (sample_create 200 home "en" "body" "fourth" contents).2)
    = 9%nat
  ∧ filter (λ r, ¬ (Content.page_id r = Page.id home
                    ∧ Content.language r = "en" ∧ Content.type r = "body"))
      (Content.rows (sample_create 200 home "en" "body" "fourth" contents).2)
    = filter (λ r, ¬ (Content.page_id r = Page.id home
                      ∧ Content.language r = "en" ∧ Content.type r = "body"))
        (Content.rows contents).
Proof.
  split; [exact contents_ok|]. split; [vm_compute; reflexivity|].
  apply (writers_leave_other_tuples settings sanitize 200 home "en" "body"
           "fourth" contents contents_ok).
Defined.

Lemma set_or_create_content_then_get_witness :
  Content.table_ok contents
  ∧ Page.freeze_date home = None
  ∧ ContentManager.get_content_object
      (Content.rows (sample_set 200 home "en" "body" "edited" contents).2)
      home "en" "body"
    = Ok (content 9 1 "en" "body" 130 "edited").
Proof.
  split; [exact contents_ok|]. split; [reflexivity|].
  destruct (set_or_create_content_then_get settings sanitize 200 home "en"
              "body" "edited" contents contents_ok eq_refl) as [Hget _].
  rewrite Hget. vm_compute. reflexivity.
Defined.

Lemma create_content_if_changed_then_get_witness :
  Content.table_ok contents
  ∧ Page.freeze_date home = None
  ∧ ContentManager.get_content_object
      (Content.rows (sample_create 200 home "en" "body" "fourth" contents).2)
      home "en" "body"
    = Ok (content 11 1 "en" "body" 200 "fourth").
Proof.
  split; [exact contents_ok|]. split; [reflexivity|].
  destruct (create_content_if_changed_then_get settings sanitize 200 home
              "en" "body" "fourth" contents contents_ok
              (contents_home_body_dates 200 eq_refl) eq_refl) as [Hget _].
  rewrite Hget. vm_compute. reflexivity.
Defined.

Local Abbreviation unlimited_create :=
  (ContentManager.create_content_if_changed unlimited_settings sanitize).

Lemma create_content_if_changed_unlimited_witness :
  GERBI_CONTENT_REVISION_DEPTH unlimited_settings = 0%nat
  ∧ Content.rows contents
    `prefix_of` Content.rows
                  (unlimited_create 200 home "en" "body" "fourth" contents).2
  ∧ length (Content.rows
              (unlimited_create 200 home "en" "body" "fourth" contents).2)
    = 11%nat.
Proof.
  split; [reflexivity|].
  destruct (create_content_if_changed_unlimited unlimited_settings sanitize
              200 home "en" "body" "fourth" contents eq_refl) as [Hprefix _].
  split; [exact Hprefix|]. vm_compute. reflexivity.
Defined.

(** Frozen at 115, [home] shows its first body, before and after a fourth
    body is written without revision depth. *)
Lemma create_content_if_changed_frozen_view_witness :
  Page.freeze_date archived_home = Some 115
  ∧ ContentManager.get_content_object
      (Content.rows
         (unlimited_create 200 home "en" "body" "fourth" contents).2)
      archived_home "en" "body"
    = Ok (content 7 1 "en" "body" 110 "first").
Proof.
  split; [reflexivity|].
  rewrite (create_content_if_changed_frozen_view unlimited_settings sanitize
             200 home "en" "body" "fourth" contents archived_home 115 "en"
             "body" eq_refl eq_refl eq_refl).
  vm_compute. reflexivity.
Defined.

(** At depth 2 the fourth body deletes the first: the frozen page has no
    body left. *)
Example frozen_view_lost_at_depth_2 :
  ContentManager.get_content_object (Content.rows contents) archived_home
    "en" "body" = Ok (content 7 1 "en" "body" 110 "first")
  ∧ ContentManager.get_content_object
      (Content.rows (sample_create 200 home "en" "body" "fourth" contents).2)
      archived_home "en" "body"
    = Raise DoesNotExist.
Proof. split; vm_compute; reflexivity. Qed.

Lemma set_or_create_content_idempotent_witness :
  Content.table_ok contents
  ∧ sample_set 300 home "en" "body" "edited"
      (sample_set 200 home "en" "body" "edited" contents).2
    = sample_set 200 home "en" "body" "edited" contents.
Proof.
  split; [exact contents_ok|].
  apply (set_or_create_content_idempotent settings sanitize 200 300 home "en"
           "body" "edited" contents contents_ok).
Defined.

(** The keys of [home] and of [home] frozen differ. *)
Lemma content_dict_key_inj_witness :
  ContentManager.GERBI_CONTENT_DICT_KEY 1 "body" 0
    = ContentManager.GERBI_CONTENT_DICT_KEY 1 "body" 0
  ∧ (ContentManager.GERBI_CONTENT_DICT_KEY 1 "body" 0
     ≠ ContentManager.GERBI_CONTENT_DICT_KEY 1 "body" 1)
  ∧ Page.id home = Page.id home_loaded.
Proof.
  split; [reflexivity|]. split.
  - intros H.
    destruct (content_dict_key_inj home "body" archived_home "body" H)
      as (_ & _ & Hfrozen).
    assert (Hnone : Page.freeze_date archived_home = None)
      by (by apply Hfrozen).
    discriminate.
  - by destruct (content_dict_key_inj home "body" home_loaded "body" eq_refl).
Defined.

Lemma alias_from_path_result_sound_witness :
  PageAliasManager.from_path normalize_url aliases (request "page=1")
    "/foo/bar/" "en" = Ok (Some (alias 2 3 "/foo/bar?page=1"))
  ∧ alias 2 3 "/foo/bar?page=1" ∈ aliases.
Proof.
  assert (H : PageAliasManager.from_path normalize_url aliases
                (request "page=1") "/foo/bar/" "en"
              = Ok (Some (alias 2 3 "/foo/bar?page=1")))
    by (vm_compute; reflexivity).
  split; [exact H|].
  by destruct (alias_from_path_result_sound normalize_url aliases
                 (request "page=1") "/foo/bar/" "en" _ H).
Defined.

(** Two aliases under [/foo]: the lookup of [/foo] raises. *)
Lemma alias_from_path_raises_witness :
  PageAliasManager.from_path normalize_url duplicate_aliases (request "")
    "/foo" "en" = Raise MultipleObjectsReturned
  ∧ ¬ NoDup (map PageAlias.url duplicate_aliases).
Proof.
  assert (H : PageAliasManager.from_path normalize_url duplicate_aliases
                (request "") "/foo" "en" = Raise MultipleObjectsReturned)
    by (vm_compute; reflexivity).
  split; [exact H|].
  by destruct (alias_from_path_raises normalize_url duplicate_aliases
                 (request "") "/foo" "en" _ H).
Defined.

(** With nothing in the memo and the cache, the English body of [home] is
    read from the table. *)
Lemma get_content_reads_through_witness :
  ("en", "English") ∈ GERBI_LANGUAGES settings
  ∧ ∃ page',
      (ContentManager.get_content settings filter_link (Content.rows contents)
         home "en" "body" false ∅).1 = Ok ("third", page').
Proof.
  split; [left|].
  destruct (get_content_reads_through settings filter_link
              (Content.rows contents) home "en" "English" "body" ∅)
    as [page' Hread]; [reflexivity|reflexivity|discriminate|left|].
  exists page'. rewrite Hread. reflexivity.
Defined.

End sample_site_further.
